(** * URL shortener: store, code assignment and redirect handler

    A shallow embedding of [URL.py] (classes [URLShortener] and
    [RedirectHandler]) and the properties of its specification.

    Conventions of the embedding:
    - a Python [str] is a [string]: the sequence of the bytes of its UTF-8
      encoding, so that [url.encode()] is the list of its characters' codes;
      the prefixes and the stripped character of the source are ASCII, for
      which a test on bytes and a test on code points agree;
    - the SQLite table [urls] is the list of its rows in rowid order;
    - every method that opens a connection takes the table and returns the
      table it leaves behind (explicit state passing);
    - [CURRENT_TIMESTAMP] is an input of the insertion (the clock is not part
      of the program); a timestamp is a number of seconds, whose order is the
      order of the texts 'YYYY-MM-DD HH:MM:SS' SQLite stores;
    - an SQLite INTEGER is an integer of [Z]: the 64-bit range of the storage
      is not modelled (a counter leaves it after 2^63 increments);
    - the form ([URLShortenerGUI]) is the values its variables and widgets
      hold, with the list of the calls it made on message boxes, clipboard
      and browser; one method call is one step.
*)

From Stdlib Require Import ZArith List String Ascii Bool Lia Permutation Sorted.
From Stdlib Require Import NArith DecimalString.
Import ListNotations.
Local Open Scope string_scope.
Local Open Scope list_scope.
Local Open Scope Z_scope.

(* ================================================================= *)
(** ** Python built-ins used by the source *)

Module Py.

(** [s.startswith(p)] *)
Definition startswith (s p : string) : bool := String.prefix p s.

(** [s.startswith((p1, p2, ...))]: true when one of the prefixes matches. *)
Definition startswith_any (s : string) (ps : list string) : bool :=
  existsb (startswith s) ps.

(** Membership of a character in the character set of [lstrip]. *)
Fixpoint char_in (c : ascii) (chars : string) : bool :=
  match chars with
  | EmptyString => false
  | String c' rest => if Ascii.eqb c c' then true else char_in c rest
  end.

(** [s.lstrip(chars)]: drop the leading characters that belong to [chars]. *)
Fixpoint lstrip (chars : string) (s : string) : string :=
  match s with
  | EmptyString => EmptyString
  | String c rest => if char_in c chars then lstrip chars rest else s
  end.

(** [s.encode()]: the bytes of the string, as numbers in [0, 256). *)
Definition encode (s : string) : list Z :=
  map (fun c => Z.of_N (N_of_ascii c)) (list_ascii_of_string s).

(** [s[:n]] *)
Definition slice_to (n : nat) (s : string) : string := substring 0 n s.

End Py.

(* ================================================================= *)
(** ** [hashlib.md5]: the MD5 message digest (RFC 1321) on 32-bit words *)

Module Hashlib.

Definition w32 : Z := 2 ^ 32.

(** Addition of 32-bit words wraps around. *)
Definition add32 (x y : Z) : Z := (x + y) mod w32.

Definition not32 (x : Z) : Z := Z.lxor x (w32 - 1).

(** Circular left shift of a 32-bit word. *)
Definition rotl32 (x n : Z) : Z :=
  Z.lor (Z.shiftl x n mod w32) (Z.shiftr x (32 - n)).

(** The sine table: [K i = floor (2^32 * abs (sin (i + 1)))]. *)
Definition K : list Z :=
  [ 0xd76aa478; 0xe8c7b756; 0x242070db; 0xc1bdceee;
    0xf57c0faf; 0x4787c62a; 0xa8304613; 0xfd469501;
    0x698098d8; 0x8b44f7af; 0xffff5bb1; 0x895cd7be;
    0x6b901122; 0xfd987193; 0xa679438e; 0x49b40821;
    0xf61e2562; 0xc040b340; 0x265e5a51; 0xe9b6c7aa;
    0xd62f105d; 0x02441453; 0xd8a1e681; 0xe7d3fbc8;
    0x21e1cde6; 0xc33707d6; 0xf4d50d87; 0x455a14ed;
    0xa9e3e905; 0xfcefa3f8; 0x676f02d9; 0x8d2a4c8a;
    0xfffa3942; 0x8771f681; 0x6d9d6122; 0xfde5380c;
    0xa4beea44; 0x4bdecfa9; 0xf6bb4b60; 0xbebfbc70;
    0x289b7ec6; 0xeaa127fa; 0xd4ef3085; 0x04881d05;
    0xd9d4d039; 0xe6db99e5; 0x1fa27cf8; 0xc4ac5665;
    0xf4292244; 0x432aff97; 0xab9423a7; 0xfc93a039;
    0x655b59c3; 0x8f0ccc92; 0xffeff47d; 0x85845dd1;
    0x6fa87e4f; 0xfe2ce6e0; 0xa3014314; 0x4e0811a1;
    0xf7537e82; 0xbd3af235; 0x2ad7d2bb; 0xeb86d391 ].

(** Per-step rotation amounts. *)
Definition shifts : list Z :=
  [ 7; 12; 17; 22; 7; 12; 17; 22; 7; 12; 17; 22; 7; 12; 17; 22;
    5;  9; 14; 20; 5;  9; 14; 20; 5;  9; 14; 20; 5;  9; 14; 20;
    4; 11; 16; 23; 4; 11; 16; 23; 4; 11; 16; 23; 4; 11; 16; 23;
    6; 10; 15; 21; 6; 10; 15; 21; 6; 10; 15; 21; 6; 10; 15; 21 ].

(** The four chaining words. *)
Record state := mkState { sA : Z; sB : Z; sC : Z; sD : Z }.

Definition init_state : state :=
  mkState 0x67452301 0xefcdab89 0x98badcfe 0x10325476.

(** The auxiliary function of step [i] and the index of the message word
    it consumes. *)
Definition mix (i : nat) (b c d : Z) : Z :=
  if (i <? 16)%nat then Z.lor (Z.land b c) (Z.land (not32 b) d)
  else if (i <? 32)%nat then Z.lor (Z.land d b) (Z.land (not32 d) c)
  else if (i <? 48)%nat then Z.lxor (Z.lxor b c) d
  else Z.lxor c (Z.lor b (not32 d)).

Definition word_index (i : nat) : nat :=
  if (i <? 16)%nat then i
  else if (i <? 32)%nat then (5 * i + 1) mod 16
  else if (i <? 48)%nat then (3 * i + 5) mod 16
  else (7 * i) mod 16.

Definition step (m : list Z) (st : state) (i : nat) : state :=
  let f := add32 (add32 (add32 (mix i (sB st) (sC st) (sD st)) (sA st))
                        (nth i K 0))
                 (nth (word_index i) m 0) in
  mkState (sD st) (add32 (sB st) (rotl32 f (nth i shifts 0))) (sB st) (sC st).

(** Little-endian decoding of the sixteen words of a 64-byte block. *)
Definition le32 (b0 b1 b2 b3 : Z) : Z :=
  b0 + Z.shiftl b1 8 + Z.shiftl b2 16 + Z.shiftl b3 24.

Fixpoint words (fuel : nat) (bs : list Z) : list Z :=
  match fuel, bs with
  | S fuel', b0 :: b1 :: b2 :: b3 :: rest =>
      le32 b0 b1 b2 b3 :: words fuel' rest
  | _, _ => []
  end.

Definition compress (st : state) (block : list Z) : state :=
  let m := words 16 block in
  let st' := fold_left (step m) (seq 0 64) st in
  mkState (add32 (sA st) (sA st')) (add32 (sB st) (sB st'))
          (add32 (sC st) (sC st')) (add32 (sD st) (sD st')).

(** Little-endian encoding of a number on [n] bytes. *)
Fixpoint le_bytes (n : nat) (x : Z) : list Z :=
  match n with
  | O => []
  | S n' => x mod 256 :: le_bytes n' (x / 256)
  end.

(** Padding: a 1 bit, zeros up to 56 modulo 64 bytes, then the length of
    the message in bits on 64 bits. *)
Definition pad (msg : list Z) : list Z :=
  let len := Z.of_nat (List.length msg) in
  msg ++ [0x80] ++ repeat 0 (Z.to_nat ((55 - len) mod 64))
      ++ le_bytes 8 ((8 * len) mod 2 ^ 64).

Fixpoint blocks (fuel : nat) (bs : list Z) : list (list Z) :=
  match fuel, bs with
  | S fuel', _ :: _ => firstn 64 bs :: blocks fuel' (skipn 64 bs)
  | _, _ => []
  end.

(** [hashlib.md5(data)]: the state after the last block. *)
Definition md5 (data : list Z) : state :=
  let p := pad data in
  fold_left compress (blocks (List.length p) p) init_state.

(** [.digest()]: the sixteen bytes of the four words, little-endian. *)
Definition digest (st : state) : list Z :=
  le_bytes 4 (sA st) ++ le_bytes 4 (sB st) ++
  le_bytes 4 (sC st) ++ le_bytes 4 (sD st).

Definition hex_digit (n : Z) : ascii :=
  match get (Z.to_nat n) "0123456789abcdef" with
  | Some c => c
  | None => "0"%char
  end.

Fixpoint hex_of_bytes (bs : list Z) : string :=
  match bs with
  | [] => EmptyString
  | b :: rest =>
      String (hex_digit (b / 16)) (String (hex_digit (b mod 16))
             (hex_of_bytes rest))
  end.

(** [.hexdigest()]: two lower-case hexadecimal digits per byte. *)
Definition hexdigest (st : state) : string := hex_of_bytes (digest st).

End Hashlib.

(* ================================================================= *)
(** ** Class [URLShortener]: the table [urls] and the methods on it *)

Module URLShortener.

Definition timestamp := Z.

(** One row of the table created by [init_database]:
    [id INTEGER PRIMARY KEY AUTOINCREMENT], [short_code TEXT UNIQUE NOT NULL],
    [original_url TEXT NOT NULL],
    [created_at TIMESTAMP DEFAULT CURRENT_TIMESTAMP],
    [click_count INTEGER DEFAULT 0]. *)
Record row := mkRow {
  id : Z;
  short_code : string;
  original_url : string;
  created_at : timestamp;
  click_count : Z
}.

(** The table, in rowid order. *)
Definition table := list row.

(** Exception classes of the [sqlite3] module. *)
Inductive exn := IntegrityError | OperationalError.

(** What a statement or a method does: return a value or raise. *)
Inductive outcome (A : Type) :=
| Returned (a : A)
| Raised (e : exn).
Arguments Returned {A} a.
Arguments Raised {A} e.

(** [init_database]: [CREATE TABLE IF NOT EXISTS] on a file that has no
    table ([None]) creates it empty, and leaves an existing table alone. *)
Definition init_database (file : option table) : table :=
  match file with
  | None => []
  | Some t => t
  end.

(** [generate_short_code]: [hashlib.md5(url.encode()).hexdigest()[:6]] *)
Definition generate_short_code (url : string) : string :=
  Py.slice_to 6 (Hashlib.hexdigest (Hashlib.md5 (Py.encode url))).

(** The rowid AUTOINCREMENT gives to the next row: one more than the
    largest one in use (no row is ever deleted). *)
Definition next_id (t : table) : Z := 1 + fold_right Z.max 0 (map id t).

Definition has_code (code : string) (r : row) : bool :=
  String.eqb (short_code r) code.

Definition has_url (url : string) (r : row) : bool :=
  String.eqb (original_url r) url.

(** [INSERT INTO urls (short_code, original_url) VALUES (?, ?)]: the
    UNIQUE constraint on [short_code] rejects a code that a row already
    has; otherwise the row is appended with the defaults of the schema. *)
Definition sql_insert (now : timestamp) (t : table) (code url : string)
  : outcome table :=
  if existsb (has_code code) t then Raised IntegrityError
  else Returned (t ++ [mkRow (next_id t) code url now 0]).

(** [SELECT short_code FROM urls WHERE original_url = ?] *)
Definition sql_select_code (t : table) (url : string) : list string :=
  map short_code (filter (has_url url) t).

(** [SELECT original_url FROM urls WHERE short_code = ?] *)
Definition sql_select_url (t : table) (code : string) : list string :=
  map original_url (filter (has_code code) t).

(** [UPDATE urls SET click_count = click_count + 1 WHERE short_code = ?] *)
Definition sql_update_clicks (t : table) (code : string) : table :=
  map (fun r =>
         if has_code code r
         then mkRow (id r) (short_code r) (original_url r) (created_at r)
                    (click_count r + 1)
         else r) t.

(** [ORDER BY created_at DESC]: rows of equal [created_at] keep their rowid
    order (SQL leaves the order of ties open). *)
Fixpoint insert_desc (r : row) (l : list row) : list row :=
  match l with
  | [] => [r]
  | x :: l' =>
      if created_at x <=? created_at r then r :: l
      else x :: insert_desc r l'
  end.

Definition order_by_created_desc (t : table) : list row :=
  fold_right insert_desc [] t.

(** The four columns [get_all_urls] selects. *)
Definition entry_of (r : row) : string * string * timestamp * Z :=
  (short_code r, original_url r, created_at r, click_count r).

(** [SELECT short_code, original_url, created_at, click_count FROM urls
    ORDER BY created_at DESC] *)
Definition sql_select_all (t : table)
  : list (string * string * timestamp * Z) :=
  map entry_of (order_by_created_desc t).

(** [cursor.fetchone()]: the first row of the result, if any. *)
Definition fetchone {A : Type} (rows : list A) : option A := hd_error rows.

(** [add_url]: the result is the returned value ([None] is Python's [None])
    or the exception that leaves the method, with the table afterwards. *)
Definition add_url (now : timestamp) (t : table) (url : string)
  : outcome (option string) * table :=
  let url :=
    if negb (Py.startswith_any url ["http://"; "https://"])
    then ("http://" ++ url)%string
    else url in
  let code := generate_short_code url in
  match sql_insert now t code url with
  | Returned t' => (Returned (Some code), t')
  | Raised IntegrityError =>
      let result := fetchone (sql_select_code t url) in
      (Returned (match result with Some c => Some c | None => None end), t)
  | Raised e => (Raised e, t)
  end.

(** [get_original_url] *)
Definition get_original_url (t : table) (code : string) : option string :=
  let result := fetchone (sql_select_url t code) in
  match result with Some u => Some u | None => None end.

(** [increment_click_count] *)
Definition increment_click_count (t : table) (code : string) : table :=
  sql_update_clicks t code.

(** [get_all_urls] *)
Definition get_all_urls (t : table) : list (string * string * timestamp * Z) :=
  sql_select_all t.

End URLShortener.

(* ================================================================= *)
(** ** Class [RedirectHandler] *)

Module RedirectHandler.
Import URLShortener.

(** What a request makes the handler do, in the order it does it: the
    calls on the shortener and the calls that write the response. *)
Inductive event :=
| get_original_url_call (code : string)
| increment_click_count_call (code : string)
| send_response (status : Z)
| send_header (keyword value : string)
| end_headers
| wfile_write (data : string).

(** The handler runs on the table of the shortener and on the trace of
    what it has done so far. *)
Record world := mkWorld { urls : table; trace : list event }.

(** The exception a call of the handler can raise. *)
Inductive error := UnicodeEncodeError.

(** What a call of the handler does: return a value or raise. *)
Inductive result (A : Type) :=
| Ok (a : A)
| Raise (e : error).
Arguments Ok {A} a.
Arguments Raise {A} e.

Definition M (A : Type) : Type := world -> result A * world.

Definition ret {A : Type} (a : A) : M A := fun w => (Ok a, w).

(** Sequencing: what follows a call that raises is not run. *)
Definition bind {A B : Type} (m : M A) (k : A -> M B) : M B :=
  fun w =>
    match m w with
    | (Ok a, w') => k a w'
    | (Raise e, w') => (Raise e, w')
    end.

Notation "x <- m ;; k" := (bind m (fun x => k))
  (at level 61, m at next level, right associativity).
Notation "m ;; k" := (bind m (fun _ => k))
  (at level 61, right associativity).

Definition emit (e : event) : M unit :=
  fun w => (Ok tt, mkWorld (urls w) (trace w ++ [e])).

Definition call_get_original_url (code : string) : M (option string) :=
  fun w => (Ok (URLShortener.get_original_url (urls w) code),
            mkWorld (urls w) (trace w ++ [get_original_url_call code])).

Definition call_increment_click_count (code : string) : M unit :=
  fun w => (Ok tt, mkWorld (URLShortener.increment_click_count (urls w) code)
                           (trace w ++ [increment_click_count_call code])).

(** [s.encode('latin-1', 'strict')] succeeds: [s] has no character above
    U+00FF, that is, its UTF-8 encoding has no byte from 0xC4 on. *)
Definition latin1_encodable (s : string) : bool :=
  forallb (fun c => (N_of_ascii c <? 0xC4)%N) (list_ascii_of_string s).

(** [self.send_header(keyword, value)], for a request of HTTP/1.0 or later
    (an HTTP/0.9 request has no header section): the header line is
    encoded in Latin-1 before it is buffered; with a character outside
    Latin-1 the call raises and buffers nothing. The other calls that
    write the response encode constants of the handler and do not
    raise. *)
Definition call_send_header (keyword value : string) : M unit :=
  fun w =>
    if latin1_encodable keyword && latin1_encodable value
    then (Ok tt, mkWorld (urls w) (trace w ++ [send_header keyword value]))
    else (Raise UnicodeEncodeError, w).

(** Truth value of [original_url] in [if original_url:]: [None] and the
    empty string are false. *)
Definition truthy (v : option string) : bool :=
  match v with
  | None => false
  | Some u => negb (String.eqb u "")
  end.

Definition home_page : string := "
            <html>
            <head><title>URL Shortener</title></head>
            <body>
                <h1>URL Shortener Service</h1>
                <p>This is a local URL shortener service running on port 8080.</p>
                <p>Use the GUI application to create short URLs.</p>
            </body>
            </html>
            ".

Definition not_found_page : string := "
            <html>
            <head><title>URL Not Found</title></head>
            <body>
                <h1>404 - URL Not Found</h1>
                <p>The short URL you requested does not exist.</p>
            </body>
            </html>
            ".

(** [do_GET], on the request target [self.path]. *)
Definition do_GET (self_path : string) : M unit :=
  let path := Py.lstrip "/" self_path in
  if String.eqb path "" then
    emit (send_response 200) ;;
    call_send_header "Content-type" "text/html" ;;
    emit end_headers ;;
    emit (wfile_write home_page)
  else
    original_url <- call_get_original_url path ;;
    if truthy original_url then
      call_increment_click_count path ;;
      emit (send_response 301) ;;
      call_send_header "Location"
        (match original_url with Some u => u | None => "" end) ;;
      emit end_headers
    else
      emit (send_response 404) ;;
      call_send_header "Content-type" "text/html" ;;
      emit end_headers ;;
      emit (wfile_write not_found_page).

(** One request served on a table: the trace of the request and the table
    afterwards. *)
Definition handle (t : table) (self_path : string) : list event * table :=
  let w := snd (do_GET self_path (mkWorld t [])) in (trace w, urls w).

(** One request served on a table: how [do_GET] ends, with the trace and
    the table. An exception leaves [do_GET] with the response buffered so
    far never sent, the server closes the connection and goes on. *)
Definition serve (t : table) (self_path : string)
  : result unit * list event * table :=
  let (r, w) := do_GET self_path (mkWorld t []) in (r, trace w, urls w).

(** The status line and the [Location] header of a trace. *)
Definition status_of (tr : list event) : option Z :=
  hd_error (flat_map (fun e => match e with send_response s => [s] | _ => [] end) tr).

Definition header_of (keyword : string) (tr : list event) : option string :=
  hd_error (flat_map (fun e => match e with
                               | send_header k v =>
                                   if String.eqb k keyword then [v] else []
                               | _ => [] end) tr).

Definition body_of (tr : list event) : list string :=
  flat_map (fun e => match e with wfile_write d => [d] | _ => [] end) tr.

End RedirectHandler.

(* ================================================================= *)
(** ** Runs of the core operations *)

Module Run.
Import URLShortener.

(** The core operations a caller (the form or the listener) can perform. *)
Inductive op :=
| AddUrl (now : timestamp) (url : string)
| GetOriginalUrl (code : string)
| IncrementClickCount (code : string)
| GetAllUrls
| DoGET (path : string).

(** The table after one operation. *)
Definition step (t : table) (o : op) : table :=
  match o with
  | AddUrl now url => snd (add_url now t url)
  | GetOriginalUrl _ => t
  | IncrementClickCount code => increment_click_count t code
  | GetAllUrls => t
  | DoGET path => snd (RedirectHandler.handle t path)
  end.

(** The table after a sequence of operations on a fresh database file. *)
Definition run (ops : list op) : table :=
  fold_left step ops (init_database None).

(** The tables the program can build. *)
Definition reachable (t : table) : Prop := exists ops, t = run ops.

(** The string [add_url] works on: its argument, prefixed when it has no
    scheme. *)
Definition normalized (url : string) : string :=
  if Py.startswith_any url ["http://"; "https://"] then url
  else ("http://" ++ url)%string.

(** Every character of [s] belongs to [chars]. *)
Fixpoint all_in (chars : string) (s : string) : bool :=
  match s with
  | EmptyString => true
  | String c rest => Py.char_in c chars && all_in chars rest
  end.

Definition hex_chars : string := "0123456789abcdef".

(** The click count of the entry of [code], if there is one. *)
Definition clicks_of (t : table) (code : string) : option Z :=
  option_map click_count (find (has_code code) t).

(** The number of rows stored for a URL. *)
Definition entries_for (t : table) (url : string) : nat :=
  List.length (filter (has_url url) t).

(** A row with [n] more clicks. *)
Definition clicked (n : Z) (r : row) : row :=
  mkRow (id r) (short_code r) (original_url r) (created_at r)
        (click_count r + n).

(** The [created_at] column of a row returned by [get_all_urls]. *)
Definition entry_created_at (e : string * string * timestamp * Z)
  : timestamp :=
  let '(_, _, ts, _) := e in ts.

(** The order of [get_all_urls]: [a] may come before [b]. *)
Definition newer_first (a b : row) : Prop := created_at b <= created_at a.

(** [n] calls of [increment_click_count] for one code. *)
Fixpoint increment_n (n : nat) (t : table) (code : string) : table :=
  match n with
  | O => t
  | S n' => increment_click_count (increment_n n' t code) code
  end.

(** Another URL already holds the short code of [url]. *)
Definition code_taken_by_other (t : table) (url : string) : bool :=
  existsb (fun r => has_code (generate_short_code url) r
                    && negb (has_url url r)) t.

(** The URL of the last INSERT that succeeded with [code] along a run that
    starts on [t], [acc] being the one before the run. *)
Fixpoint last_inserted (t : table) (ops : list op) (code : string)
         (acc : option string) : option string :=
  match ops with
  | [] => acc
  | o :: rest =>
      let acc' :=
        match o with
        | AddUrl now url =>
            let u := normalized url in
            match sql_insert now t (generate_short_code u) u with
            | Returned _ =>
                if String.eqb (generate_short_code u) code then Some u
                else acc
            | Raised _ => acc
            end
        | _ => acc
        end in
      last_inserted (step t o) rest code acc'
  end.

(** What the table of the program always satisfies: short codes are
    unique, every code is the one generated from the URL of its row, every
    URL has a scheme, and no counter is negative. *)
Record store_inv (t : table) : Prop := mkInv {
  inv_unique : NoDup (map short_code t);
  inv_code : Forall (fun r => short_code r
                              = generate_short_code (original_url r)) t;
  inv_scheme : Forall (fun r => Py.startswith_any (original_url r)
                                  ["http://"; "https://"] = true) t;
  inv_clicks : Forall (fun r => 0 <= click_count r) t
}.

End Run.

(* ================================================================= *)
(** ** More Python built-ins, used by the form *)

Module PyStr.

(** The code of a byte of a string. *)
Definition code (c : ascii) : N := N_of_ascii c.

(** The characters [str.strip()] removes, by their UTF-8 encoding: the code
    points 9-13 and 28-32 on one byte; U+0085 and U+00A0 on two; U+1680,
    U+2000-U+200A, U+2028, U+2029, U+202F, U+205F and U+3000 on three. *)
Definition space1 (c : ascii) : bool :=
  let n := code c in
  ((9 <=? n) && (n <=? 13) || (28 <=? n) && (n <=? 32))%N.

Definition space2 (c1 c2 : ascii) : bool :=
  ((code c1 =? 0xC2) && ((code c2 =? 0x85) || (code c2 =? 0xA0)))%N.

Definition space3 (c1 c2 c3 : ascii) : bool :=
  let a := code c1 in
  let b := code c2 in
  let c := code c3 in
  ((a =? 0xE1) && (b =? 0x9A) && (c =? 0x80)
   || (a =? 0xE2) && (b =? 0x80)
      && ((0x80 <=? c) && (c <=? 0x8A) || (c =? 0xA8) || (c =? 0xA9)
          || (c =? 0xAF))
   || (a =? 0xE2) && (b =? 0x81) && (c =? 0x9F)
   || (a =? 0xE3) && (b =? 0x80) && (c =? 0x80))%N.

(** Drop the whitespace characters at the front of [s]; with [backwards],
    [s] is a reversed string, whose characters have their bytes in reverse
    order. *)
Fixpoint drop_spaces (backwards : bool) (s : string) : string :=
  match s with
  | EmptyString => EmptyString
  | String c1 s1 =>
      if space1 c1 then drop_spaces backwards s1
      else
        match s1 with
        | EmptyString => s
        | String c2 s2 =>
            if (if backwards then space2 c2 c1 else space2 c1 c2)
            then drop_spaces backwards s2
            else
              match s2 with
              | EmptyString => s
              | String c3 s3 =>
                  if (if backwards then space3 c3 c2 c1
                      else space3 c1 c2 c3)
                  then drop_spaces backwards s3
                  else s
              end
        end
  end.

Definition reverse (s : string) : string :=
  string_of_list_ascii (rev (list_ascii_of_string s)).

(** [s.strip()]: without the leading and the trailing whitespace. *)
Definition strip (s : string) : string :=
  reverse (drop_spaces true (reverse (drop_spaces false s))).

(** A byte that continues a character started by an earlier byte. *)
Definition continuation (c : ascii) : bool :=
  ((0x80 <=? code c) && (code c <? 0xC0))%N.

(** [len(s)]: the number of characters, one per byte that starts one. *)
Fixpoint len (s : string) : nat :=
  match s with
  | EmptyString => O
  | String c rest => if continuation c then len rest else S (len rest)
  end.

(** [s[:n]]: the first [n] characters, each with all its bytes. *)
Fixpoint slice_chars (n : nat) (s : string) : string :=
  match s with
  | EmptyString => EmptyString
  | String c rest =>
      if continuation c then String c (slice_chars n rest)
      else
        match n with
        | O => EmptyString
        | S n' => String c (slice_chars n' rest)
        end
  end.

(** [str(i)] of an [int], as in a formatted string literal. *)
Definition str_int (i : Z) : string := NilZero.string_of_int (Z.to_int i).

End PyStr.

(* ================================================================= *)
(** ** Class [URLShortenerGUI]: the methods behind the form *)

Module Form.
Import URLShortener.

(** [self.server_port], set by [URLShortener.__init__]. *)
Definition server_port : Z := 8080.

(** Calls that leave the form: message boxes, clipboard and browser. *)
Inductive effect :=
| showerror (title message : string)
| showerror_exception (e : exn)
| showinfo (title message : string)
| clipboard_clear
| clipboard_append (text : string)
| webbrowser_open (url : string).

(** The values of one line of the analytics table. *)
Definition item : Type := string * string * timestamp * Z.

(** The form: the table of its shortener, the variables and widget options
    its methods read and write, and the calls made so far.
    [showerror_exception e] stands for
    [showerror("Error", f"An error occurred: {str(e)}")]. *)
Record gui := mkGui {
  db : table;
  url_var : string;
  result_var : string;
  copy_btn_state : string;
  open_btn_state : string;
  tree : list item;
  effects : list effect
}.

(** The line shown for a URL: at most 50 characters of it, then dots. *)
Definition display_url (original_url : string) : string :=
  if (50 <? PyStr.len original_url)%nat
  then (PyStr.slice_chars 50 original_url ++ "...")%string
  else original_url.

(** [self.tree.delete(item)] for the first child. *)
Definition tree_delete_first (tr : list item) : list item := tl tr.

(** [self.tree.insert('', 'end', values=...)] *)
Definition tree_insert_end (tr : list item) (values : item) : list item :=
  tr ++ [values].

(** [refresh_analytics]: delete every child in turn, then insert one line
    per row returned by [get_all_urls]. *)
Definition refresh_analytics (g : gui) : gui :=
  let cleared :=
    fold_left (fun tr _ => tree_delete_first tr) (tree g) (tree g) in
  let urls := get_all_urls (db g) in
  let filled :=
    fold_left
      (fun tr url_data =>
         let '(short_code, original_url, created_at, click_count) :=
           url_data in
         tree_insert_end tr
           (short_code, display_url original_url, created_at, click_count))
      urls cleared in
  mkGui (db g) (url_var g) (result_var g) (copy_btn_state g)
        (open_btn_state g) filled (effects g).

Definition say (e : effect) (g : gui) : gui :=
  mkGui (db g) (url_var g) (result_var g) (copy_btn_state g)
        (open_btn_state g) (tree g) (effects g ++ [e]).

(** Truth value of a string in [if not url:], [if result:]. *)
Definition nonempty (s : string) : bool := negb (String.eqb s "").

(** [shorten_url], at the time [now] of the clock. *)
Definition shorten_url (now : timestamp) (g : gui) : gui :=
  let url := PyStr.strip (url_var g) in
  if negb (nonempty url) then
    say (showerror "Error" "Please enter a URL to shorten.") g
  else
    match add_url now (db g) url with
    | (Returned short_code, t') =>
        let g := mkGui t' (url_var g) (result_var g) (copy_btn_state g)
                       (open_btn_state g) (tree g) (effects g) in
        if match short_code with Some c => nonempty c | None => false end
        then
          let short_url :=
            ("http://localhost:" ++ PyStr.str_int server_port ++ "/"
             ++ match short_code with Some c => c | None => "" end)%string in
          let g := mkGui (db g) (url_var g) short_url "normal" "normal"
                         (tree g) (effects g) in
          let g := refresh_analytics g in
          say (showinfo "Success"
                 ("URL shortened successfully!
Short URL: " ++ short_url)%string) g
        else
          say (showerror "Error" "Failed to shorten URL.") g
    | (Raised e, t') =>
        say (showerror_exception e)
            (mkGui t' (url_var g) (result_var g) (copy_btn_state g)
                   (open_btn_state g) (tree g) (effects g))
    end.

(** [copy_result] *)
Definition copy_result (g : gui) : gui :=
  let result := result_var g in
  if nonempty result then
    say (showinfo "Copied" "Shortened URL copied to clipboard!")
        (say (clipboard_append result) (say clipboard_clear g))
  else g.

(** [open_result] *)
Definition open_result (g : gui) : gui :=
  let result := result_var g in
  if nonempty result then say (webbrowser_open result) g else g.

(** The form as [__init__] and [setup_ui] leave it on a database file:
    empty variables, disabled buttons and a refreshed table. *)
Definition init (file : option table) : gui :=
  refresh_analytics
    (mkGui (init_database file) "" "" "disabled" "disabled" [] []).

(** What happens to a running form: the user edits the entry, presses a
    button, or the listener serves a request on the same database. *)
Inductive action :=
| Edit (text : string)
| Shorten (now : timestamp)
| Copy
| Open
| Refresh
| Request (path : string).

Definition act (g : gui) (a : action) : gui :=
  match a with
  | Edit text =>
      mkGui (db g) text (result_var g) (copy_btn_state g) (open_btn_state g)
            (tree g) (effects g)
  | Shorten now => shorten_url now g
  | Copy => copy_result g
  | Open => open_result g
  | Refresh => refresh_analytics g
  | Request path =>
      mkGui (snd (RedirectHandler.handle (db g) path)) (url_var g)
            (result_var g) (copy_btn_state g) (open_btn_state g) (tree g)
            (effects g)
  end.

(** The form after a sequence of actions from start-up on a fresh file. *)
Definition session (actions : list action) : gui :=
  fold_left act actions (init None).

(** The text the clipboard holds after a list of calls. *)
Definition clipboard_of (es : list effect) : string :=
  fold_left (fun clip e =>
               match e with
               | clipboard_clear => ""
               | clipboard_append text => (clip ++ text)%string
               | _ => clip
               end) es "".

(** The short URL the form shows for a code. *)
Definition short_url_of (code : string) : string :=
  ("http://localhost:8080/" ++ code)%string.

End Form.

(* ================================================================= *)
(** ** Notions used to state further properties *)

Module View.
Import URLShortener RedirectHandler.

(** What identifies a row and never changes: all but the click count. *)
Definition key_of (r : row) : Z * string * string * timestamp :=
  (id r, short_code r, original_url r, created_at r).

(** The calls of a trace that write the response. *)
Definition writes_response (e : event) : bool :=
  match e with
  | get_original_url_call _ | increment_click_count_call _ => false
  | _ => true
  end.

Definition response_of (tr : list event) : list event :=
  filter writes_response tr.

(** Every byte of [s] is one of the one-byte whitespace characters. *)
Fixpoint blank (s : string) : bool :=
  match s with
  | EmptyString => true
  | String c rest => PyStr.space1 c && blank rest
  end.

(** The line of the analytics table for a listed entry. *)
Definition line_of (e : string * string * timestamp * Z) : Form.item :=
  let '(short_code, original_url, created_at, click_count) := e in
  (short_code, Form.display_url original_url, created_at, click_count).

(** Rows in strictly increasing order of creation time. *)
Definition created_later (a b : row) : Prop := created_at a < created_at b.

(** A text that left the form is the short URL of a stored code. *)
Definition resolves (t : table) (text : string) : Prop :=
  exists code url,
    text = Form.short_url_of code /\ get_original_url t code = Some url.

(** The texts a call hands to the clipboard or to the browser. *)
Definition handed_out (e : Form.effect) : list string :=
  match e with
  | Form.clipboard_append text => [text]
  | Form.webbrowser_open url => [url]
  | _ => []
  end.

(** What the form shows as result: nothing, with both buttons disabled, or
    a short URL that resolves, with both buttons enabled. *)
Definition shown_ok (g : Form.gui) : Prop :=
  (Form.result_var g = "" /\ Form.copy_btn_state g = "disabled" /\
   Form.open_btn_state g = "disabled") \/
  (resolves (Form.db g) (Form.result_var g) /\
   Form.copy_btn_state g = "normal" /\ Form.open_btn_state g = "normal").

(** Every text handed to the clipboard or the browser resolves. *)
Definition handed_ok (g : Form.gui) : Prop :=
  Forall (fun e => Forall (resolves (Form.db g)) (handed_out e))
         (Form.effects g).

(** The clipboard is as the form found it or holds a text that resolves. *)
Definition clipboard_ok (g : Form.gui) : Prop :=
  Form.clipboard_of (Form.effects g) = "" \/
  resolves (Form.db g) (Form.clipboard_of (Form.effects g)).

(** What holds of a running form. *)
Definition form_inv (g : Form.gui) : Prop :=
  Run.store_inv (Form.db g) /\ shown_ok g /\ handed_ok g /\ clipboard_ok g.

End View.

(* ================================================================= *)
(** ** Sample inputs *)

Module Sample.

(** The string of the bytes of the given codes. *)
Definition bytes (codes : list N) : string :=
  string_of_list_ascii (map ascii_of_N codes).

(** A URL with characters outside Latin-1: "http://", the characters
    U+4F8B and U+3048 in UTF-8, ".jp/". *)
Definition url_outside_latin1 : string :=
  ("http://" ++ bytes [0xE4; 0xBE; 0x8B; 0xE3; 0x81; 0x88]%N ++ ".jp/")%string.

End Sample.

(* ================================================================= *)
(** ** Test vectors of RFC 1321 *)

Example md5_empty :
  Hashlib.hexdigest (Hashlib.md5 (Py.encode "")) =
  "d41d8cd98f00b204e9800998ecf8427e".
Proof. vm_compute. reflexivity. Qed.

Example md5_abc :
  Hashlib.hexdigest (Hashlib.md5 (Py.encode "abc")) =
  "900150983cd24fb0d6963f7d28e17f72".
Proof. vm_compute. reflexivity. Qed.

Example md5_two_blocks :
  Hashlib.hexdigest (Hashlib.md5 (Py.encode
    "12345678901234567890123456789012345678901234567890123456789012345678901234567890")) =
  "57edf4a22be3c955ac49da2e2107b67a".
Proof. vm_compute. reflexivity. Qed.

(* ================================================================= *)
(** ** End-to-end scenarios *)

Example scenario_shorten_then_redirect :
  URLShortener.add_url 10 [] "example.com"
  = (URLShortener.Returned (Some "a9b9f0"),
     [URLShortener.mkRow 1 "a9b9f0" "http://example.com" 10 0]) /\
  RedirectHandler.header_of "Location"
    (fst (RedirectHandler.handle (Run.run [Run.AddUrl 10 "example.com"])
                                 "/a9b9f0"))
  = Some "http://example.com".
Proof. split; vm_compute; reflexivity. Qed.

Example scenario_unknown_code :
  RedirectHandler.status_of
    (fst (RedirectHandler.handle (Run.run [Run.AddUrl 10 "example.com"])
                                 "/000000"))
  = Some 404.
Proof. vm_compute. reflexivity. Qed.

Example scenario_same_url_twice :
  URLShortener.get_all_urls
    (Run.run [Run.AddUrl 10 "example.com"; Run.AddUrl 11 "example.com"])
  = [("a9b9f0", "http://example.com", 10, 0)].
Proof. vm_compute. reflexivity. Qed.

Example scenario_two_redirects :
  Run.clicks_of
    (Run.run [Run.AddUrl 10 "example.com"; Run.DoGET "/a9b9f0";
              Run.DoGET "/a9b9f0"]) "a9b9f0"
  = Some 2.
Proof. vm_compute. reflexivity. Qed.

Example scenario_two_urls_one_code :
  URLShortener.generate_short_code "http://site3213.com" = "ed3f54" /\
  URLShortener.generate_short_code "http://site3245.com" = "ed3f54".
Proof. split; vm_compute; reflexivity. Qed.

(* ================================================================= *)
(** ** Shape of the digest and of the short code *)

Import URLShortener Run.

#[local] Arguments generate_short_code : simpl never.
#[local] Arguments normalized : simpl never.

Lemma hex_digit_in_hex_chars (n : Z) :
  Py.char_in (Hashlib.hex_digit n) hex_chars = true.
Proof.
  unfold Hashlib.hex_digit.
  generalize (Z.to_nat n); intros k.
  do 16 (destruct k as [|k]; [reflexivity|]).
  reflexivity.
Qed.

Lemma hex_of_bytes_length (bs : list Z) :
  String.length (Hashlib.hex_of_bytes bs) = (2 * List.length bs)%nat.
Proof.
  induction bs as [|b bs IH]; simpl; [reflexivity|].
  rewrite IH. lia.
Qed.

Lemma hex_of_bytes_all_hex (bs : list Z) :
  all_in hex_chars (Hashlib.hex_of_bytes bs) = true.
Proof.
  induction bs as [|b bs IH]; [reflexivity|].
  cbn [Hashlib.hex_of_bytes all_in].
  now rewrite !hex_digit_in_hex_chars, IH.
Qed.

Lemma le_bytes_length (n : nat) (x : Z) :
  List.length (Hashlib.le_bytes n x) = n.
Proof.
  revert x; induction n as [|n IH]; intros x; simpl; [reflexivity|].
  now rewrite IH.
Qed.

Lemma hexdigest_length (st : Hashlib.state) :
  String.length (Hashlib.hexdigest st) = 32%nat.
Proof.
  unfold Hashlib.hexdigest, Hashlib.digest.
  rewrite hex_of_bytes_length, !length_app, !le_bytes_length.
  reflexivity.
Qed.

Lemma substring_from_start_length (n : nat) (s : string) :
  String.length (substring 0 n s) = Nat.min n (String.length s).
Proof.
  revert s; induction n as [|n IH]; intros [|c s]; simpl; auto.
Qed.

Lemma substring_from_start_all_in (chars : string) (n : nat) (s : string) :
  all_in chars s = true -> all_in chars (substring 0 n s) = true.
Proof.
  revert s; induction n as [|n IH]; intros [|c s]; simpl; auto.
  intros H; apply andb_true_iff in H as [Hc Hs].
  now rewrite Hc, IH.
Qed.

Lemma substring_from_start_prefix (n : nat) (s : string) :
  String.prefix (substring 0 n s) s = true.
Proof.
  revert s; induction n as [|n IH]; intros [|c s]; simpl; auto.
  destruct (ascii_dec c c) as [_|Hne]; [apply IH | now elim Hne].
Qed.

Lemma short_code_length (url : string) :
  String.length (generate_short_code url) = 6%nat.
Proof.
  unfold generate_short_code, Py.slice_to.
  now rewrite substring_from_start_length, hexdigest_length.
Qed.

Lemma short_code_all_hex (url : string) :
  all_in hex_chars (generate_short_code url) = true.
Proof.
  unfold generate_short_code, Py.slice_to.
  apply substring_from_start_all_in, hex_of_bytes_all_hex.
Qed.

(* ================================================================= *)
(** ** The statements and [add_url] *)

Lemma normalized_has_scheme (url : string) :
  Py.startswith_any (normalized url) ["http://"; "https://"] = true.
Proof.
  unfold normalized.
  destruct (Py.startswith_any url ["http://"; "https://"]) eqn:E.
  - exact E.
  - unfold Py.startswith_any, Py.startswith. cbn.
    now destruct url.
Qed.

Lemma normalized_idempotent (url : string) :
  normalized (normalized url) = normalized url.
Proof.
  unfold normalized at 1. now rewrite normalized_has_scheme.
Qed.

(** [add_url] in one equation: the INSERT is rejected exactly when the code
    of the normalized URL is taken. *)
Lemma add_url_eq (now : timestamp) (t : table) (url : string) :
  add_url now t url =
  let u := normalized url in
  let c := generate_short_code u in
  if existsb (has_code c) t
  then (Returned (fetchone (sql_select_code t u)), t)
  else (Returned (Some c), t ++ [mkRow (next_id t) c u now 0]).
Proof.
  unfold add_url, normalized, sql_insert.
  destruct (Py.startswith_any url ["http://"; "https://"]); cbv beta zeta;
    cbn [negb];
    match goal with
    | |- context [existsb ?f t] => destruct (existsb f t)
    end;
    try reflexivity;
    match goal with
    | |- context [fetchone ?l] => destruct (fetchone l)
    end; reflexivity.
Qed.

Lemma existsb_has_code_In (t : table) (code : string) :
  existsb (has_code code) t = true <-> In code (map short_code t).
Proof.
  rewrite existsb_exists, in_map_iff. unfold has_code.
  split; intros [r H]; exists r.
  - destruct H as [Hin Heq]. apply String.eqb_eq in Heq. now split.
  - destruct H as [Heq Hin]. split; [exact Hin|]. now apply String.eqb_eq.
Qed.

Lemma filter_has_code_absent (t : table) (code : string) :
  ~ In code (map short_code t) -> filter (has_code code) t = [].
Proof.
  induction t as [|r t IH]; simpl; intros H; [reflexivity|].
  unfold has_code at 1.
  destruct (String.eqb_spec (short_code r) code) as [E|_].
  - elim H. now left.
  - apply IH. intros Hin; apply H; now right.
Qed.

Lemma find_has_code_absent (t : table) (code : string) :
  ~ In code (map short_code t) -> find (has_code code) t = None.
Proof.
  induction t as [|r t IH]; simpl; intros H; [reflexivity|].
  unfold has_code at 1.
  destruct (String.eqb_spec (short_code r) code) as [E|_].
  - elim H. now left.
  - apply IH. intros Hin; apply H; now right.
Qed.

(** With unique codes, the rows selected by the code of a stored row are
    that row alone. *)
Lemma filter_has_code_unique (t : table) (r : row) :
  NoDup (map short_code t) -> In r t ->
  filter (has_code (short_code r)) t = [r].
Proof.
  induction t as [|x t IH]; simpl; intros Hnd Hin; [contradiction|].
  inversion Hnd as [|? ? Hx Hnd']; subst.
  destruct Hin as [->|Hin].
  - unfold has_code at 1. rewrite String.eqb_refl.
    now rewrite (filter_has_code_absent t (short_code r) Hx).
  - unfold has_code at 1.
    destruct (String.eqb_spec (short_code x) (short_code r)) as [E|_].
    + elim Hx. rewrite E. now apply in_map.
    + now apply IH.
Qed.

(* ================================================================= *)
(** ** The invariant of the table *)

Lemma store_inv_nil : store_inv [].
Proof. split; constructor. Qed.

Lemma store_inv_increment (t : table) (code : string) :
  store_inv t -> store_inv (increment_click_count t code).
Proof.
  intros [Hu Hc Hs Hn].
  unfold increment_click_count, sql_update_clicks.
  split.
  - rewrite map_map.
    erewrite map_ext; [exact Hu|].
    intros r; now destruct (has_code code r).
  - rewrite Forall_map. eapply Forall_impl; [|exact Hc].
    intros r H; now destruct (has_code code r).
  - rewrite Forall_map. eapply Forall_impl; [|exact Hs].
    intros r H; now destruct (has_code code r).
  - rewrite Forall_map. eapply Forall_impl; [|exact Hn].
    intros r H; destruct (has_code code r); simpl in *; lia.
Qed.

Lemma store_inv_add_url (now : timestamp) (t : table) (url : string) :
  store_inv t -> store_inv (snd (add_url now t url)).
Proof.
  intros [Hu Hc Hs Hn]. rewrite add_url_eq. cbv zeta.
  destruct (existsb (has_code (generate_short_code (normalized url))) t)
    eqn:E; cbn [snd].
  - now split.
  - split.
    + rewrite map_app. cbn [map short_code].
      apply NoDup_app; [exact Hu | repeat constructor; intros [] |].
      intros c Hin [<-|[]].
      apply existsb_has_code_In in Hin. congruence.
    + apply Forall_app; split; [exact Hc|]. now repeat constructor.
    + apply Forall_app; split; [exact Hs|]. repeat constructor.
      apply normalized_has_scheme.
    + apply Forall_app; split; [exact Hn|]. repeat constructor.
      cbn. lia.
Qed.

Import RedirectHandler.

(** [do_GET] in one equation, on any table. *)
Lemma serve_eq (t : table) (path : string) :
  serve t path =
  let code := Py.lstrip "/" path in
  if String.eqb code "" then
    (Ok tt,
     [send_response 200; send_header "Content-type" "text/html";
      end_headers; wfile_write home_page], t)
  else
    match get_original_url t code with
    | Some u =>
        if String.eqb u "" then
          (Ok tt,
           [get_original_url_call code;
            send_response 404; send_header "Content-type" "text/html";
            end_headers; wfile_write not_found_page], t)
        else if latin1_encodable u then
          (Ok tt,
           [get_original_url_call code; increment_click_count_call code;
            send_response 301; send_header "Location" u; end_headers],
           increment_click_count t code)
        else
          (Raise UnicodeEncodeError,
           [get_original_url_call code; increment_click_count_call code;
            send_response 301],
           increment_click_count t code)
    | None =>
        (Ok tt,
         [get_original_url_call code;
          send_response 404; send_header "Content-type" "text/html";
          end_headers; wfile_write not_found_page], t)
    end.
Proof.
  unfold serve, do_GET. cbv zeta.
  destruct (String.eqb (Py.lstrip "/" path) "").
  - reflexivity.
  - unfold bind at 1, call_get_original_url. cbn [urls trace].
    destruct (get_original_url t (Py.lstrip "/" path)) as [u|];
      [|reflexivity].
    unfold truthy. destruct (String.eqb u ""); cbn [negb]; [reflexivity|].
    unfold bind, emit, call_increment_click_count, call_send_header.
    cbn [urls trace app].
    change (latin1_encodable "Location") with true. cbn [andb].
    destruct (latin1_encodable u); reflexivity.
Qed.

Lemma handle_serve (t : table) (path : string) :
  handle t path = (snd (fst (serve t path)), snd (serve t path)).
Proof.
  unfold handle, serve. now destruct (do_GET path (mkWorld t [])).
Qed.

(** [handle] in one equation, on any table. *)
Lemma handle_eq (t : table) (path : string) :
  handle t path =
  let code := Py.lstrip "/" path in
  if String.eqb code "" then
    ([send_response 200; send_header "Content-type" "text/html";
      end_headers; wfile_write home_page], t)
  else
    match get_original_url t code with
    | Some u =>
        if String.eqb u "" then
          ([get_original_url_call code;
            send_response 404; send_header "Content-type" "text/html";
            end_headers; wfile_write not_found_page], t)
        else if latin1_encodable u then
          ([get_original_url_call code; increment_click_count_call code;
            send_response 301; send_header "Location" u; end_headers],
           increment_click_count t code)
        else
          ([get_original_url_call code; increment_click_count_call code;
            send_response 301],
           increment_click_count t code)
    | None =>
        ([get_original_url_call code;
          send_response 404; send_header "Content-type" "text/html";
          end_headers; wfile_write not_found_page], t)
    end.
Proof.
  rewrite handle_serve, serve_eq. cbv zeta.
  destruct (String.eqb (Py.lstrip "/" path) ""); [reflexivity|].
  destruct (get_original_url t (Py.lstrip "/" path)) as [u|];
    [|reflexivity].
  destruct (String.eqb u ""); [reflexivity|].
  destruct (latin1_encodable u); reflexivity.
Qed.

Lemma handle_table (t : table) (path : string) :
  snd (RedirectHandler.handle t path) = t \/
  snd (RedirectHandler.handle t path)
  = increment_click_count t (Py.lstrip "/" path).
Proof.
  rewrite handle_eq. cbv zeta.
  destruct (String.eqb (Py.lstrip "/" path) ""); [now left|].
  destruct (get_original_url t (Py.lstrip "/" path)) as [u|];
    [|now left].
  destruct (String.eqb u ""); [now left|].
  destruct (latin1_encodable u); now right.
Qed.

Lemma store_inv_step (t : table) (o : op) :
  store_inv t -> store_inv (step t o).
Proof.
  intros H. destruct o as [now url|code|code| |path]; cbn [step]; auto.
  - now apply store_inv_add_url.
  - now apply store_inv_increment.
  - destruct (handle_table t path) as [-> | ->];
      [exact H | now apply store_inv_increment].
Qed.

Lemma store_inv_steps (ops : list op) (t : table) :
  store_inv t -> store_inv (fold_left step ops t).
Proof.
  revert t; induction ops as [|o ops IH]; intros t H; simpl; [exact H|].
  apply IH. now apply store_inv_step.
Qed.

Lemma reachable_store_inv (t : table) : reachable t -> store_inv t.
Proof.
  intros [ops ->]. apply store_inv_steps, store_inv_nil.
Qed.

Lemma fetchone_select_code_In (t : table) (url code : string) :
  fetchone (sql_select_code t url) = Some code ->
  exists r, In r t /\ original_url r = url /\ short_code r = code.
Proof.
  unfold fetchone, sql_select_code.
  induction t as [|x t IH]; simpl; [discriminate|].
  unfold has_url at 1.
  destruct (String.eqb_spec (original_url x) url) as [E|_]; simpl.
  - intros [= <-]. exists x. auto.
  - intros H. destruct (IH H) as (r & Hin & Hr). exists r. auto.
Qed.

Lemma select_code_nil_iff (t : table) (url : string) :
  sql_select_code t url = [] <-> ~ In url (map original_url t).
Proof.
  unfold sql_select_code.
  induction t as [|x t IH]; simpl.
  - split; [intros _ [] | reflexivity].
  - unfold has_url at 1.
    destruct (String.eqb_spec (original_url x) url) as [E|N]; simpl.
    + split; [discriminate | intros H; elim H; now left].
    + rewrite IH. split.
      * intros H [E|Hin]; [now apply N | now apply H].
      * intros H Hin; apply H; now right.
Qed.

(* ================================================================= *)
(** ** Normalization and code assignment *)

(** C1. A URL that starts with neither "http://" nor "https://" is handled
    as "http://" followed by the URL: [add_url] does on it what it does on
    the prefixed string, the short code is generated from the prefixed
    string, and a row it adds stores the prefixed string. A URL that
    starts with one of the two schemes is used unchanged. *)
Theorem add_url_normalization (now : timestamp) (t : table) (url : string) :
  (Py.startswith_any url ["http://"; "https://"] = false ->
   let u := ("http://" ++ url)%string in
   let c := generate_short_code u in
   normalized url = u /\
   add_url now t url = add_url now t u /\
   add_url now t url =
     if existsb (has_code c) t
     then (Returned (fetchone (sql_select_code t u)), t)
     else (Returned (Some c), t ++ [mkRow (next_id t) c u now 0]))
  /\
  (Py.startswith_any url ["http://"; "https://"] = true ->
   let c := generate_short_code url in
   normalized url = url /\
   add_url now t url =
     if existsb (has_code c) t
     then (Returned (fetchone (sql_select_code t url)), t)
     else (Returned (Some c), t ++ [mkRow (next_id t) c url now 0])).
Proof.
  split; intros E; cbv zeta.
  - assert (N : normalized url = ("http://" ++ url)%string)
      by (unfold normalized; now rewrite E).
    split; [exact N|]. split.
    + rewrite (add_url_eq now t ("http://" ++ url)), <- N, normalized_idempotent.
      apply add_url_eq.
    + rewrite add_url_eq, N. reflexivity.
  - assert (N : normalized url = url)
      by (unfold normalized; now rewrite E).
    split; [exact N|].
    rewrite add_url_eq, N. reflexivity.
Qed.

Lemma add_url_normalization_witness :
  (Py.startswith_any "example.com" ["http://"; "https://"] = false /\
   add_url 10 [] "example.com" =
   (Returned (Some "a9b9f0"),
    [mkRow 1 "a9b9f0" "http://example.com" 10 0])) /\
  (Py.startswith_any "https://example.org/848" ["http://"; "https://"] = true /\
   add_url 10 [] "https://example.org/848" =
   (Returned (Some "78d0da"),
    [mkRow 1 "78d0da" "https://example.org/848" 10 0])).
Proof.
  split; (split; [reflexivity|]).
  - destruct (proj1 (add_url_normalization 10 [] "example.com") eq_refl)
      as (_ & _ & H).
    rewrite H. vm_compute. reflexivity.
  - destruct (proj2 (add_url_normalization 10 [] "https://example.org/848")
                eq_refl) as (_ & H).
    rewrite H. vm_compute. reflexivity.
Defined.

(** C2. The short code of a URL is the first six characters of the
    hexadecimal MD5 digest of the bytes of the URL: six lower-case
    hexadecimal digits, a prefix of the 32-digit digest. Assignment is
    deterministic: whatever the table and the time, a call of [add_url]
    that returns a code for a URL returns the code generated from its
    normalized form, so two calls return the same code. *)
Theorem short_code_digest_prefix :
  (forall url,
     let hex := Hashlib.hexdigest (Hashlib.md5 (Py.encode url)) in
     generate_short_code url = substring 0 6 hex /\
     String.length hex = 32%nat /\
     all_in hex_chars hex = true /\
     String.length (generate_short_code url) = 6%nat /\
     String.prefix (generate_short_code url) hex = true) /\
  (forall now1 now2 t1 t2 url c1 c2,
     reachable t1 -> reachable t2 ->
     fst (add_url now1 t1 url) = Returned (Some c1) ->
     fst (add_url now2 t2 url) = Returned (Some c2) ->
     c1 = generate_short_code (normalized url) /\ c2 = c1).
Proof.
  split.
  - intros url hex. subst hex.
    split; [reflexivity|].
    split; [apply hexdigest_length|].
    split; [apply hex_of_bytes_all_hex|].
    split; [apply short_code_length|].
    apply substring_from_start_prefix.
  - assert (G : forall now t url c, reachable t ->
                fst (add_url now t url) = Returned (Some c) ->
                c = generate_short_code (normalized url)).
    { intros now t url c Hr. apply reachable_store_inv in Hr.
      rewrite add_url_eq. cbv zeta.
      destruct (existsb _ t); cbn [fst].
      - intros [= H]. apply fetchone_select_code_In in H
          as (r & Hin & Hu & Hc).
        pose proof (inv_code t Hr) as Hcode.
        rewrite Forall_forall in Hcode.
        rewrite <- Hc, <- Hu. now apply Hcode.
      - now intros [= <-]. }
    intros now1 now2 t1 t2 url c1 c2 H1 H2 E1 E2.
    rewrite (G _ _ _ _ H1 E1), (G _ _ _ _ H2 E2). now split.
Qed.

Lemma short_code_digest_prefix_witness :
  reachable (run []) /\
  reachable (run [AddUrl 10 "example.com"; DoGET "/a9b9f0"]) /\
  fst (add_url 20 (run []) "example.com") = Returned (Some "a9b9f0") /\
  fst (add_url 30 (run [AddUrl 10 "example.com"; DoGET "/a9b9f0"])
               "example.com") = Returned (Some "a9b9f0") /\
  "a9b9f0" = generate_short_code (normalized "example.com") /\
  "a9b9f0" = "a9b9f0".
Proof.
  assert (R1 : reachable (run [])) by (now exists []).
  assert (R2 : reachable (run [AddUrl 10 "example.com"; DoGET "/a9b9f0"]))
    by (now eexists).
  assert (E1 : fst (add_url 20 (run []) "example.com")
               = Returned (Some "a9b9f0")) by (vm_compute; reflexivity).
  assert (E2 : fst (add_url 30 (run [AddUrl 10 "example.com";
                                     DoGET "/a9b9f0"]) "example.com")
               = Returned (Some "a9b9f0")) by (vm_compute; reflexivity).
  repeat (split; [assumption|]).
  exact (proj2 short_code_digest_prefix 20 30 _ _ _ _ _ R1 R2 E1 E2).
Defined.

(* ================================================================= *)
(** ** Inserting the same URL again *)

Lemma no_other_holder (t : table) (url : string) :
  code_taken_by_other t url = false ->
  forall r, In r t -> has_code (generate_short_code url) r = true ->
            has_url url r = true.
Proof.
  unfold code_taken_by_other. intros H r Hin Hc.
  destruct (has_url url r) eqn:E; [reflexivity|].
  assert (X : existsb (fun r => has_code (generate_short_code url) r
                                && negb (has_url url r)) t = true).
  { apply existsb_exists. exists r. now rewrite Hc, E. }
  congruence.
Qed.

(** Without a collision, the rows of a URL are the rows of its code. *)
Lemma filter_url_is_filter_code (t : table) (url : string) :
  store_inv t -> code_taken_by_other t url = false ->
  filter (has_url url) t = filter (has_code (generate_short_code url)) t.
Proof.
  intros Hinv Hno. apply filter_ext_in. intros r Hin.
  pose proof (inv_code t Hinv) as Hcode. rewrite Forall_forall in Hcode.
  destruct (has_code (generate_short_code url) r) eqn:E.
  - now apply (no_other_holder t url Hno).
  - unfold has_url. destruct (String.eqb_spec (original_url r) url) as [U|_];
      [|reflexivity].
    unfold has_code in E. rewrite (Hcode r Hin), U, String.eqb_refl in E.
    discriminate.
Qed.

Lemma stored_once (t : table) (url : string) :
  store_inv t -> code_taken_by_other t url = false ->
  existsb (has_code (generate_short_code url)) t = true ->
  sql_select_code t url = [generate_short_code url] /\
  entries_for t url = 1%nat.
Proof.
  intros Hinv Hno Hex.
  apply existsb_exists in Hex as (r & Hin & Hc).
  unfold has_code in Hc. apply String.eqb_eq in Hc.
  unfold sql_select_code, entries_for.
  rewrite (filter_url_is_filter_code t url Hinv Hno), <- Hc.
  rewrite (filter_has_code_unique t r (inv_unique t Hinv) Hin).
  now split.
Qed.

Lemma add_url_keeps_no_other (now : timestamp) (t : table) (url : string) :
  code_taken_by_other t (normalized url) = false ->
  code_taken_by_other (snd (add_url now t url)) (normalized url) = false /\
  existsb (has_code (generate_short_code (normalized url)))
          (snd (add_url now t url)) = true.
Proof.
  intros Hno. rewrite add_url_eq. cbv zeta.
  destruct (existsb (has_code _) t) eqn:E; cbn [snd].
  - now split.
  - unfold code_taken_by_other in *.
    rewrite !existsb_app, Hno, E. cbn.
    unfold has_code, has_url. cbn. now rewrite !String.eqb_refl.
Qed.

(** C3, as stated: two calls of [add_url] with one URL both return one
    short code and leave exactly one row for the URL. It fails when another
    URL already holds the short code: "http://site3213.com" and
    "http://site3245.com" both have the code "ed3f54", so once the first is
    stored both calls for the second return [None] and no row is stored
    for it. *)
Lemma insert_twice_counterexample :
  ~ (forall now1 now2 t url, reachable t ->
       let (r1, t1) := add_url now1 t url in
       let (r2, t2) := add_url now2 t1 url in
       (exists c, r1 = Returned (Some c) /\ r2 = Returned (Some c)) /\
       entries_for t2 (normalized url) = 1%nat).
Proof.
  intros H.
  specialize (H 13 14 (run [AddUrl 12 "site3213.com"]) "site3245.com").
  assert (R : reachable (run [AddUrl 12 "site3213.com"])) by (now eexists).
  specialize (H R). vm_compute in H.
  destruct H as [_ H]. discriminate H.
Qed.

(** C3, amended. On a table the program can build, for a URL whose short
    code is not held by another URL, two calls of [add_url] both return
    the short code of the normalized URL, the second call leaves the table
    as the first one left it, and the table then has exactly one row for
    the normalized URL. *)
Theorem insert_twice_same_code (now1 now2 : timestamp) (t : table)
        (url : string) :
  reachable t ->
  code_taken_by_other t (normalized url) = false ->
  let c := generate_short_code (normalized url) in
  let t1 := snd (add_url now1 t url) in
  let t2 := snd (add_url now2 t1 url) in
  fst (add_url now1 t url) = Returned (Some c) /\
  fst (add_url now2 t1 url) = Returned (Some c) /\
  t2 = t1 /\
  entries_for t2 (normalized url) = 1%nat.
Proof.
  intros Hr Hno c t1 t2.
  apply reachable_store_inv in Hr.
  assert (Hinv1 : store_inv t1) by (now apply store_inv_add_url).
  destruct (add_url_keeps_no_other now1 t url Hno) as [Hno1 Hex1].
  fold t1 in Hno1, Hex1.
  destruct (stored_once t1 _ Hinv1 Hno1 Hex1) as [Hsel1 Hone1].
  assert (E2 : add_url now2 t1 url = (Returned (Some c), t1)).
  { rewrite add_url_eq. cbv zeta. now rewrite Hex1, Hsel1. }
  assert (Ht2 : t2 = t1) by (unfold t2; now rewrite E2).
  split; [|split; [now rewrite E2 | split; [exact Ht2 | now rewrite Ht2]]].
  rewrite add_url_eq. cbv zeta.
  destruct (existsb (has_code _) t) eqn:E; cbn [fst]; [|reflexivity].
  destruct (stored_once t _ Hr Hno E) as [Hsel _].
  now rewrite Hsel.
Qed.

Lemma insert_twice_same_code_witness :
  reachable (run [AddUrl 12 "site3213.com"]) /\
  code_taken_by_other (run [AddUrl 12 "site3213.com"])
                      (normalized "example.com") = false /\
  fst (add_url 13 (run [AddUrl 12 "site3213.com"]) "example.com")
  = Returned (Some "a9b9f0") /\
  entries_for
    (snd (add_url 14 (snd (add_url 13 (run [AddUrl 12 "site3213.com"])
                                   "example.com")) "example.com"))
    "http://example.com" = 1%nat.
Proof.
  assert (R : reachable (run [AddUrl 12 "site3213.com"])) by (now eexists).
  assert (N : code_taken_by_other (run [AddUrl 12 "site3213.com"])
                                  (normalized "example.com") = false)
    by (vm_compute; reflexivity).
  destruct (insert_twice_same_code 13 14 _ "example.com" R N)
    as (H1 & _ & _ & H4).
  split; [exact R|]. split; [exact N|]. split.
  - rewrite H1. vm_compute. reflexivity.
  - exact H4.
Defined.

(* ================================================================= *)
(** ** The rejected INSERT *)

Lemma fetchone_none_iff {A : Type} (l : list A) :
  fetchone l = None <-> l = [].
Proof. destruct l; simpl; split; congruence. Qed.

(** The first row of a table that holds a URL, or the fact that no row
    does. *)
Lemma first_row_of_url (t : table) (u : string) :
  match fetchone (sql_select_code t u) with
  | Some c' =>
      exists before r after,
        t = before ++ r :: after /\ original_url r = u /\
        (forall x, In x before -> original_url x <> u) /\
        c' = short_code r
  | None => forall x, In x t -> original_url x <> u
  end.
Proof.
  unfold fetchone, sql_select_code.
  induction t as [|x t IH]; cbn [filter map hd_error]; [intros y []|].
  unfold has_url at 1.
  destruct (String.eqb_spec (original_url x) u) as [E|N].
  - cbn [map hd_error]. exists [], x, t.
    split; [reflexivity|]. split; [exact E|]. split; [intros y []|].
    reflexivity.
  - destruct (hd_error (map short_code (filter (has_url u) t))) as [c'|].
    + destruct IH as (before & r & after & Ht & Hu & Hb & Hc).
      exists (x :: before), r, after.
      split; [now rewrite Ht|]. split; [exact Hu|]. split; [|exact Hc].
      intros y [<-|Hy]; [exact N | now apply Hb].
    + intros y [<-|Hy]; [exact N | now apply IH].
Qed.

(** C4. [add_url] never raises. The INSERT violates the UNIQUE constraint
    exactly when a row of the table already has the short code of the
    normalized URL; [add_url] then leaves the table as it was and returns
    the short code of the first row whose [original_url] is the normalized
    URL, or [None] when no row has that URL. It returns [None] in no other
    case, and without a violation it returns the new code and appends the
    row. *)
Theorem add_url_integrity_error_handled (now : timestamp) (t : table)
        (url : string) :
  let u := normalized url in
  let c := generate_short_code u in
  (exists v, fst (add_url now t url) = Returned v) /\
  (sql_insert now t c u = Raised IntegrityError ->
   add_url now t url = (Returned (fetchone (sql_select_code t u)), t)) /\
  (fst (add_url now t url) = Returned None <->
   sql_insert now t c u = Raised IntegrityError /\
   sql_select_code t u = []) /\
  (sql_insert now t c u = Raised IntegrityError <->
   exists r, In r t /\ short_code r = c) /\
  ((exists r, In r t /\ short_code r = c) ->
   snd (add_url now t url) = t /\
   ((exists before r after,
       t = before ++ r :: after /\ original_url r = u /\
       (forall x, In x before -> original_url x <> u) /\
       fst (add_url now t url) = Returned (Some (short_code r)))
    \/
    ((forall x, In x t -> original_url x <> u) /\
     fst (add_url now t url) = Returned None))) /\
  (fst (add_url now t url) = Returned None <->
   (exists r, In r t /\ short_code r = c) /\
   (forall x, In x t -> original_url x <> u)) /\
  ((forall r, In r t -> short_code r <> c) ->
   add_url now t url
   = (Returned (Some c), t ++ [mkRow (next_id t) c u now 0])).
Proof.
  intros u c.
  assert (X : existsb (has_code c) t = true <->
              exists r, In r t /\ short_code r = c).
  { rewrite existsb_exists. unfold has_code.
    split; intros (r & Hin & H); exists r; split; auto;
      now apply String.eqb_eq. }
  pose proof (first_row_of_url t u) as F.
  rewrite add_url_eq. cbv zeta. fold u. fold c.
  unfold sql_insert.
  destruct (existsb (has_code c) t) eqn:E; cbn [fst snd].
  - split; [eauto|]. split; [reflexivity|].
    split.
    { split.
      - intros [= H]. split; [reflexivity | now apply fetchone_none_iff].
      - intros [_ H]. now rewrite H. }
    split; [split; [intros _; now apply X | reflexivity]|].
    split.
    { intros _. split; [reflexivity|].
      destruct (fetchone (sql_select_code t u)) as [c'|].
      - left. destruct F as (before & r & after & Ht & Hu & Hb & Hc).
        exists before, r, after. now rewrite Hc.
      - right. now split. }
    split.
    { split.
      - intros [= H]. rewrite H in F. split; [now apply X | exact F].
      - intros [_ H].
        destruct (fetchone (sql_select_code t u)) as [c'|]; [|reflexivity].
        destruct F as (before & r & after & Ht & Hu & _).
        elim (H r); [|exact Hu]. rewrite Ht. apply in_elt. }
    intros H. destruct (proj1 X eq_refl) as (r & Hin & Hc).
    now elim (H r).
  - split; [eauto|]. split; [discriminate|].
    split; [split; [discriminate | intros [H _]; discriminate H]|].
    split.
    { split; [discriminate|]. intros H. apply X in H. congruence. }
    split; [intros H; apply X in H; congruence|].
    split; [|reflexivity].
    split; [discriminate|]. intros [H _]. apply X in H. congruence.
Qed.

Lemma add_url_integrity_error_handled_witness :
  (exists r, In r (run [AddUrl 12 "site3213.com"]) /\
             short_code r
             = generate_short_code (normalized "site3245.com")) /\
  (forall x, In x (run [AddUrl 12 "site3213.com"]) ->
             original_url x <> normalized "site3245.com") /\
  fst (add_url 13 (run [AddUrl 12 "site3213.com"]) "site3245.com")
  = Returned None /\
  snd (add_url 13 (run [AddUrl 12 "site3213.com"]) "site3245.com")
  = run [AddUrl 12 "site3213.com"].
Proof.
  assert (A : exists r, In r (run [AddUrl 12 "site3213.com"]) /\
                        short_code r
                        = generate_short_code (normalized "site3245.com")).
  { exists (mkRow 1 "ed3f54" "http://site3213.com" 12 0).
    split; [vm_compute; now left | vm_compute; reflexivity]. }
  assert (B : forall x, In x (run [AddUrl 12 "site3213.com"]) ->
                        original_url x <> normalized "site3245.com").
  { intros x Hx. vm_compute in Hx. destruct Hx as [<-|[]].
    vm_compute. discriminate. }
  destruct (add_url_integrity_error_handled
              13 (run [AddUrl 12 "site3213.com"]) "site3245.com")
    as (_ & _ & _ & _ & H5 & H6 & _).
  split; [exact A|]. split; [exact B|].
  split; [exact (proj2 H6 (conj A B)) | exact (proj1 (H5 A))].
Defined.

(* ================================================================= *)
(** ** Lookup *)

Lemma select_url_after_update (t : table) (code' code : string) :
  sql_select_url (sql_update_clicks t code') code = sql_select_url t code.
Proof.
  unfold sql_select_url, sql_update_clicks.
  induction t as [|r t IH]; [reflexivity|].
  cbn [map filter].
  assert (E : has_code code
                (if has_code code' r
                 then mkRow (id r) (short_code r) (original_url r)
                            (created_at r) (click_count r + 1)
                 else r) = has_code code r)
    by (now destruct (has_code code' r)).
  rewrite E. destruct (has_code code r); cbn [map]; rewrite IH;
    [|reflexivity].
  now destruct (has_code code' r).
Qed.

Lemma lookup_after_increment (t : table) (code' code : string) :
  get_original_url (increment_click_count t code') code
  = get_original_url t code.
Proof.
  unfold get_original_url, increment_click_count.
  now rewrite select_url_after_update.
Qed.

Lemma lookup_after_handle (t : table) (path code : string) :
  get_original_url (snd (RedirectHandler.handle t path)) code
  = get_original_url t code.
Proof.
  destruct (handle_table t path) as [-> | ->];
    [reflexivity | apply lookup_after_increment].
Qed.

Lemma lookup_absent (t : table) (code : string) :
  ~ In code (map short_code t) -> get_original_url t code = None.
Proof.
  intros H. unfold get_original_url, sql_select_url.
  now rewrite (filter_has_code_absent t code H).
Qed.

Lemma lookup_after_add_url (now : timestamp) (t : table) (url code : string) :
  get_original_url (snd (add_url now t url)) code =
  match sql_insert now t (generate_short_code (normalized url))
                   (normalized url) with
  | Returned _ =>
      if String.eqb (generate_short_code (normalized url)) code
      then Some (normalized url)
      else get_original_url t code
  | Raised _ => get_original_url t code
  end.
Proof.
  rewrite add_url_eq. cbv zeta. unfold sql_insert.
  destruct (existsb (has_code _) t) eqn:E; cbn [snd]; [reflexivity|].
  unfold get_original_url, sql_select_url.
  rewrite filter_app, map_app. cbn [filter].
  unfold has_code at 2. cbn [short_code].
  destruct (String.eqb_spec (generate_short_code (normalized url)) code)
    as [C|_].
  - subst code. rewrite filter_has_code_absent; [reflexivity|].
    intros Hin. apply existsb_has_code_In in Hin. congruence.
  - cbn [map]. now rewrite app_nil_r.
Qed.

Lemma lookup_along_run (ops : list op) (t : table) (code : string) :
  get_original_url (fold_left step ops t) code
  = last_inserted t ops code (get_original_url t code).
Proof.
  revert t; induction ops as [|o ops IH]; intros t; [reflexivity|].
  cbn [fold_left last_inserted]. rewrite IH. f_equal.
  destruct o as [now url|c|c| |path]; cbn [step]; try reflexivity.
  - apply lookup_after_add_url.
  - apply lookup_after_increment.
  - apply lookup_after_handle.
Qed.

(** C5. Lookup of a short code that no row has returns [None]. Lookup of
    the short code of a stored row returns the URL of that row, and after
    any run of operations lookup of a code returns the URL of the last
    INSERT that succeeded with that code ([None] when there was none). *)
Theorem lookup_returns_inserted_url :
  (forall t code,
     ~ In code (map short_code t) -> get_original_url t code = None) /\
  (forall t r,
     reachable t -> In r t ->
     get_original_url t (short_code r) = Some (original_url r)) /\
  (forall ops code,
     get_original_url (run ops) code
     = last_inserted (init_database None) ops code None).
Proof.
  split; [exact lookup_absent|]. split.
  - intros t r Hr Hin. apply reachable_store_inv in Hr.
    unfold get_original_url, sql_select_url.
    now rewrite (filter_has_code_unique t r (inv_unique t Hr) Hin).
  - intros ops code. unfold run. now rewrite lookup_along_run.
Qed.

Lemma lookup_returns_inserted_url_witness :
  (~ In "123456" (map short_code (run [AddUrl 12 "site3213.com"])) /\
   get_original_url (run [AddUrl 12 "site3213.com"]) "123456" = None) /\
  (reachable (run [AddUrl 12 "site3213.com"; AddUrl 13 "site3245.com"]) /\
   In (mkRow 1 "ed3f54" "http://site3213.com" 12 0)
      (run [AddUrl 12 "site3213.com"; AddUrl 13 "site3245.com"]) /\
   get_original_url (run [AddUrl 12 "site3213.com"; AddUrl 13 "site3245.com"])
                    "ed3f54" = Some "http://site3213.com").
Proof.
  assert (A : ~ In "123456"
                (map short_code (run [AddUrl 12 "site3213.com"])))
    by (vm_compute; intros [H|[]]; discriminate H).
  assert (R : reachable
                (run [AddUrl 12 "site3213.com"; AddUrl 13 "site3245.com"]))
    by (now eexists).
  assert (I : In (mkRow 1 "ed3f54" "http://site3213.com" 12 0)
                 (run [AddUrl 12 "site3213.com"; AddUrl 13 "site3245.com"]))
    by (vm_compute; now left).
  split.
  - split; [exact A|].
    exact (proj1 lookup_returns_inserted_url _ _ A).
  - split; [exact R|]. split; [exact I|].
    exact (proj1 (proj2 lookup_returns_inserted_url) _ _ R I).
Defined.

(* ================================================================= *)
(** ** Click counting *)

Lemma clicked_zero (r : row) : clicked 0 r = r.
Proof. destruct r; unfold clicked; cbn. f_equal. lia. Qed.

Lemma increment_n_eq (n : nat) (t : table) (code : string) :
  increment_n n t code
  = map (fun r => if has_code code r then clicked (Z.of_nat n) r else r) t.
Proof.
  induction n as [|n IH].
  - cbn [increment_n Z.of_nat]. rewrite <- (map_id t) at 1.
    apply map_ext. intros r. rewrite clicked_zero.
    now destruct (has_code code r).
  - cbn [increment_n]. rewrite IH.
    unfold increment_click_count, sql_update_clicks. rewrite map_map.
    apply map_ext. intros r.
    destruct (has_code code r) eqn:E.
    + assert (E' : has_code code (clicked (Z.of_nat n) r) = true) by exact E.
      rewrite E'. unfold clicked. cbn. f_equal. lia.
    + now rewrite E.
Qed.

Lemma increment_absent (t : table) (code : string) :
  ~ In code (map short_code t) -> increment_click_count t code = t.
Proof.
  intros H. unfold increment_click_count, sql_update_clicks.
  rewrite <- (map_id t) at 2. apply map_ext_in. intros r Hin.
  unfold has_code. destruct (String.eqb_spec (short_code r) code) as [E|_];
    [|reflexivity].
  elim H. rewrite <- E. now apply in_map.
Qed.

Lemma find_map_clicked (t : table) (code : string) (f : row -> row) :
  (forall r, has_code code (f r) = has_code code r) ->
  find (has_code code) (map f t) = option_map f (find (has_code code) t).
Proof.
  intros Hf. induction t as [|r t IH]; [reflexivity|].
  cbn [map find]. rewrite Hf. now destruct (has_code code r).
Qed.

(** C6. [n] calls of [increment_click_count] for a code add [n] to the
    click count of every row of that code and change nothing else, so the
    count of an existing entry becomes its prior value plus [n]; for a
    code that no row has, a call returns the table unchanged. *)
Theorem increment_click_count_n_times (t : table) (code : string) (n : nat) :
  increment_n n t code
  = map (fun r => if has_code code r then clicked (Z.of_nat n) r else r) t /\
  (forall k, clicks_of t code = Some k ->
             clicks_of (increment_n n t code) code = Some (k + Z.of_nat n)) /\
  (~ In code (map short_code t) ->
   increment_click_count t code = t /\ increment_n n t code = t).
Proof.
  split; [apply increment_n_eq|]. split.
  - intros k Hk. rewrite increment_n_eq. unfold clicks_of in *.
    rewrite find_map_clicked
      by (intros r; destruct (has_code code r) eqn:E; exact E).
    destruct (find (has_code code) t) as [r|] eqn:F; [|discriminate].
    apply find_some in F as [_ F]. cbn in Hk. injection Hk as <-.
    cbn. now rewrite F.
  - intros H. split; [now apply increment_absent|].
    induction n as [|m IH]; [reflexivity|].
    cbn [increment_n]. rewrite IH. now apply increment_absent.
Qed.

Lemma increment_click_count_n_times_witness :
  (clicks_of (run [AddUrl 10 "example.com"; DoGET "/a9b9f0"]) "a9b9f0"
   = Some 1 /\
   clicks_of (increment_n 3 (run [AddUrl 10 "example.com"; DoGET "/a9b9f0"])
                          "a9b9f0") "a9b9f0" = Some (1 + 3)) /\
  (~ In "123456" (map short_code (run [AddUrl 10 "example.com"])) /\
   increment_click_count (run [AddUrl 10 "example.com"]) "123456"
   = run [AddUrl 10 "example.com"]).
Proof.
  assert (A : clicks_of (run [AddUrl 10 "example.com"; DoGET "/a9b9f0"])
                        "a9b9f0" = Some 1) by (vm_compute; reflexivity).
  assert (B : ~ In "123456"
                (map short_code (run [AddUrl 10 "example.com"])))
    by (vm_compute; intros [H|[]]; discriminate H).
  split.
  - split; [exact A|].
    exact (proj1 (proj2 (increment_click_count_n_times _ "a9b9f0" 3)) 1 A).
  - split; [exact B|].
    exact (proj1 (proj2 (proj2 (increment_click_count_n_times
                                  _ "123456" 0)) B)).
Defined.

(* ================================================================= *)
(** ** Listing *)

Lemma insert_desc_perm (r : row) (l : list row) :
  Permutation (insert_desc r l) (r :: l).
Proof.
  induction l as [|x l IH]; cbn [insert_desc]; [reflexivity|].
  destruct (created_at x <=? created_at r); [reflexivity|].
  rewrite IH. apply perm_swap.
Qed.

Lemma order_by_created_desc_perm (t : table) :
  Permutation (order_by_created_desc t) t.
Proof.
  induction t as [|r t IH]; cbn; [constructor|].
  rewrite insert_desc_perm. now constructor.
Qed.

Lemma insert_desc_hd (x r : row) (l : list row) :
  created_at r < created_at x -> HdRel newer_first x l ->
  HdRel newer_first x (insert_desc r l).
Proof.
  intros Hlt Hhd. destruct l as [|y l]; cbn [insert_desc].
  - constructor. unfold newer_first. lia.
  - destruct (created_at y <=? created_at r); constructor.
    + unfold newer_first. lia.
    + now inversion Hhd.
Qed.

Lemma insert_desc_sorted (r : row) (l : list row) :
  Sorted newer_first l -> Sorted newer_first (insert_desc r l).
Proof.
  induction 1 as [|x l Hs IH Hhd]; cbn [insert_desc].
  - repeat constructor.
  - destruct (created_at x <=? created_at r) eqn:E.
    + apply Z.leb_le in E. repeat constructor; assumption.
    + apply Z.leb_gt in E. constructor; [exact IH|].
      now apply insert_desc_hd.
Qed.

Lemma order_by_created_desc_sorted (t : table) :
  StronglySorted newer_first (order_by_created_desc t).
Proof.
  apply Sorted_StronglySorted.
  - intros a b c. unfold newer_first. lia.
  - induction t as [|r t IH]; cbn; [constructor|].
    now apply insert_desc_sorted.
Qed.

Lemma StronglySorted_map_columns (l : list row) :
  StronglySorted newer_first l ->
  StronglySorted
    (fun a b : string * string * timestamp * Z => snd (fst b) <= snd (fst a))
    (map entry_of l).
Proof.
  induction 1 as [|x l Hs IH Hall]; cbn [map]; constructor; [exact IH|].
  rewrite Forall_map. eapply Forall_impl; [|exact Hall].
  intros y Hy. exact Hy.
Qed.

(** C7. [get_all_urls] returns every row of the table, each once, as the
    tuple of its short code, its URL, its creation time and its click
    count, with no tuple before one whose creation time (the third
    column) is later; it returns as many tuples as the table has rows,
    whatever that number. *)
Theorem get_all_urls_newest_first (t : table) :
  Permutation
    (get_all_urls t)
    (map (fun r => (short_code r, original_url r, created_at r,
                    click_count r)) t) /\
  StronglySorted
    (fun a b : string * string * timestamp * Z => snd (fst b) <= snd (fst a))
    (get_all_urls t) /\
  List.length (get_all_urls t) = List.length t.
Proof.
  unfold get_all_urls, sql_select_all.
  split; [|split].
  - change (map (fun r => (short_code r, original_url r, created_at r,
                           click_count r)) t)
      with (map entry_of t).
    apply Permutation_map, order_by_created_desc_perm.
  - apply StronglySorted_map_columns, order_by_created_desc_sorted.
  - rewrite length_map.
    apply Permutation_length, order_by_created_desc_perm.
Qed.

(* ================================================================= *)
(** ** The redirect handler *)

Import RedirectHandler.

Lemma lookup_some_In (t : table) (code u : string) :
  get_original_url t code = Some u ->
  exists r, In r t /\ short_code r = code /\ original_url r = u.
Proof.
  unfold get_original_url, sql_select_url, fetchone.
  induction t as [|x t IH]; cbn [filter map hd_error]; [discriminate|].
  unfold has_code at 1.
  destruct (String.eqb_spec (short_code x) code) as [E|_].
  - cbn. intros [= <-]. exists x. cbn. auto.
  - intros H. destruct (IH H) as (r & Hin & Hr). exists r. cbn. auto.
Qed.

Lemma stored_url_not_empty (t : table) (code u : string) :
  store_inv t -> get_original_url t code = Some u -> u <> "".
Proof.
  intros Hinv H. apply lookup_some_In in H as (r & Hin & _ & <-).
  pose proof (inv_scheme t Hinv) as Hs. rewrite Forall_forall in Hs.
  specialize (Hs r Hin). intros E. rewrite E in Hs. discriminate Hs.
Qed.

Lemma handle_home (t : table) (path : string) :
  Py.lstrip "/" path = "" ->
  handle t path =
  ([send_response 200; send_header "Content-type" "text/html";
    end_headers; wfile_write home_page], t).
Proof.
  intros E. rewrite handle_eq. cbv zeta. now rewrite E.
Qed.

Lemma handle_found (t : table) (path u : string) :
  Py.lstrip "/" path <> "" -> u <> "" -> latin1_encodable u = true ->
  get_original_url t (Py.lstrip "/" path) = Some u ->
  handle t path =
  ([get_original_url_call (Py.lstrip "/" path);
    increment_click_count_call (Py.lstrip "/" path);
    send_response 301; send_header "Location" u; end_headers],
   increment_click_count t (Py.lstrip "/" path)).
Proof.
  intros N Hu Hl L. rewrite handle_eq. cbv zeta.
  apply String.eqb_neq in N, Hu. now rewrite N, L, Hu, Hl.
Qed.

Lemma handle_not_found (t : table) (path : string) :
  Py.lstrip "/" path <> "" ->
  get_original_url t (Py.lstrip "/" path) = None ->
  handle t path =
  ([get_original_url_call (Py.lstrip "/" path);
    send_response 404; send_header "Content-type" "text/html";
    end_headers; wfile_write not_found_page], t).
Proof.
  intros N L. rewrite handle_eq. cbv zeta.
  apply String.eqb_neq in N. now rewrite N, L.
Qed.

(** C8. The claim fails on the code for a stored URL with a character
    outside Latin-1. The form accepts "http://" followed by two Japanese
    characters (U+4F8B, U+3048) and ".jp/", and [add_url] stores it under
    the code
    "3e455f". A request for "/3e455f" (HTTP/1.0 or later) then finds the
    URL, increments its click count and buffers the status line 301; the
    call of [send_header] for [Location] raises [UnicodeEncodeError], so
    [end_headers] is never called and no response is sent, while the
    click stays counted. *)
Theorem do_GET_location_outside_latin1 :
  let url := Sample.url_outside_latin1 in
  let t := run [AddUrl 10 url] in
  reachable t /\
  t = [mkRow 1 "3e455f" url 10 0] /\
  get_original_url t "3e455f" = Some url /\
  latin1_encodable url = false /\
  serve t "/3e455f" =
  (Raise UnicodeEncodeError,
   [get_original_url_call "3e455f"; increment_click_count_call "3e455f";
    send_response 301],
   [mkRow 1 "3e455f" url 10 1]) /\
  header_of "Location" (fst (handle t "/3e455f")) = None /\
  ~ In end_headers (fst (handle t "/3e455f")).
Proof.
  cbv zeta. split; [now eexists|].
  split; [vm_compute; reflexivity|].
  split; [vm_compute; reflexivity|].
  split; [vm_compute; reflexivity|].
  split; [vm_compute; reflexivity|].
  split; [vm_compute; reflexivity|].
  vm_compute. intros [H|[H|[H|[]]]]; discriminate H.
Qed.

(* ================================================================= *)
(** ** Click counts along a run *)

Lemma find_app_some {A : Type} (f : A -> bool) (l l' : list A) (x : A) :
  find f l = Some x -> find f (l ++ l') = Some x.
Proof.
  induction l as [|y l IH]; cbn; [discriminate|].
  now destruct (f y).
Qed.

Lemma clicks_after_increment (t : table) (code' code : string) (k : Z) :
  clicks_of t code = Some k ->
  exists k', clicks_of (increment_click_count t code') code = Some k' /\
             k <= k'.
Proof.
  unfold clicks_of, increment_click_count, sql_update_clicks.
  rewrite find_map_clicked
    by (intros r; destruct (has_code code' r); reflexivity).
  destruct (find (has_code code) t) as [r|]; [|discriminate].
  cbn. intros [= <-].
  destruct (has_code code' r); eexists; split; try reflexivity; cbn; lia.
Qed.

Lemma clicks_after_add_url (now : timestamp) (t : table) (url code : string)
      (k : Z) :
  clicks_of t code = Some k ->
  clicks_of (snd (add_url now t url)) code = Some k.
Proof.
  rewrite add_url_eq. cbv zeta.
  destruct (existsb (has_code _) t); cbn [snd]; [auto|].
  unfold clicks_of.
  destruct (find (has_code code) t) as [r|] eqn:F; [|discriminate].
  now rewrite (find_app_some _ _ _ _ F).
Qed.

Lemma clicks_after_step (t : table) (o : op) (code : string) (k : Z) :
  clicks_of t code = Some k ->
  exists k', clicks_of (step t o) code = Some k' /\ k <= k'.
Proof.
  intros H. destruct o as [now url|c|c| |path]; cbn [step].
  - exists k. split; [now apply clicks_after_add_url | lia].
  - exists k. split; [exact H | lia].
  - now apply clicks_after_increment.
  - exists k. split; [exact H | lia].
  - destruct (handle_table t path) as [-> | ->].
    + exists k. split; [exact H | lia].
    + now apply clicks_after_increment.
Qed.

Lemma clicks_after_steps (ops : list op) (t : table) (code : string) (k : Z) :
  clicks_of t code = Some k ->
  exists k', clicks_of (fold_left step ops t) code = Some k' /\ k <= k'.
Proof.
  revert t k; induction ops as [|o ops IH]; intros t k H; cbn [fold_left].
  - exists k. split; [exact H | lia].
  - destruct (clicks_after_step t o code k H) as (k1 & H1 & L1).
    destruct (IH _ _ H1) as (k2 & H2 & L2).
    exists k2. split; [exact H2 | lia].
Qed.

(** C9. After any run of the core operations no click count is negative;
    a row that [add_url] adds has click count 0; and over any further
    operations the click count of an entry never goes down. *)
Theorem click_count_never_decreases :
  (forall ops, Forall (fun r => 0 <= click_count r) (run ops)) /\
  (forall now t url,
     snd (add_url now t url) = t \/
     exists r, snd (add_url now t url) = t ++ [r] /\ click_count r = 0) /\
  (forall ops t code k,
     clicks_of t code = Some k ->
     exists k', clicks_of (fold_left step ops t) code = Some k' /\ k <= k').
Proof.
  split; [|split].
  - intros ops. apply inv_clicks, reachable_store_inv. now exists ops.
  - intros now t url. rewrite add_url_eq. cbv zeta.
    destruct (existsb (has_code _) t); cbn [snd]; [now left|].
    right. eexists. split; reflexivity.
  - exact clicks_after_steps.
Qed.

Lemma click_count_never_decreases_witness :
  clicks_of (run [AddUrl 10 "example.com"]) "a9b9f0" = Some 0 /\
  exists k',
    clicks_of (fold_left step [DoGET "/a9b9f0"; AddUrl 11 "example.com";
                               DoGET "/a9b9f0"]
                         (run [AddUrl 10 "example.com"])) "a9b9f0" = Some k'
    /\ 0 <= k'.
Proof.
  assert (A : clicks_of (run [AddUrl 10 "example.com"]) "a9b9f0" = Some 0)
    by (vm_compute; reflexivity).
  split; [exact A|].
  exact (proj2 (proj2 click_count_never_decreases) _ _ _ _ A).
Defined.

(* ================================================================= *)
(** ** The code taken from the request path *)

Lemma lstrip_one_slash (s : string) :
  Py.lstrip "/" ("/" ++ s) = Py.lstrip "/" s.
Proof. reflexivity. Qed.

Lemma question_mark_not_hex (a b : string) :
  all_in hex_chars (a ++ String "?" b) = false.
Proof.
  induction a as [|c a IH]; [reflexivity|].
  cbn [append all_in]. rewrite IH. apply andb_false_r.
Qed.

Lemma lstrip_question_mark_not_hex (a b : string) :
  all_in hex_chars (Py.lstrip "/" (a ++ String "?" b)) = false.
Proof.
  induction a as [|c a IH]; [reflexivity|].
  cbn [append Py.lstrip].
  destruct (Py.char_in c "/"); [exact IH|].
  apply (question_mark_not_hex (String c a) b).
Qed.

Lemma stored_code_hex (t : table) (code : string) :
  store_inv t -> In code (map short_code t) ->
  all_in hex_chars code = true.
Proof.
  intros Hinv Hin. apply in_map_iff in Hin as (r & <- & Hr).
  pose proof (inv_code t Hinv) as Hc. rewrite Forall_forall in Hc.
  rewrite (Hc r Hr). apply short_code_all_hex.
Qed.

(** C10. The handler looks up the raw request path without its leading
    slashes, whatever follows them. Hence "//code" is served as "/code";
    the code looked up for "/code?query" is the string "code?query" itself
    (when [code] has no leading slash); and on a table the program can
    build such a request is answered 404 with the table unchanged, also
    when [code] is stored. *)
Theorem do_GET_strips_only_slashes :
  (forall t code, handle t ("//" ++ code) = handle t ("/" ++ code)) /\
  (forall t path,
     Py.lstrip "/" path <> "" ->
     exists rest,
       fst (handle t path) = get_original_url_call (Py.lstrip "/" path) :: rest) /\
  (forall code query,
     Py.startswith code "/" = false ->
     Py.lstrip "/" ("/" ++ code ++ "?" ++ query)
     = (code ++ "?" ++ query)%string) /\
  (forall t code query,
     reachable t ->
     handle t ("/" ++ code ++ "?" ++ query) =
     ([get_original_url_call (Py.lstrip "/" (code ++ "?" ++ query));
       send_response 404; send_header "Content-type" "text/html";
       end_headers; wfile_write not_found_page], t)).
Proof.
  split; [|split; [|split]].
  - intros t code. reflexivity.
  - intros t path N. rewrite handle_eq. cbv zeta.
    apply String.eqb_neq in N. rewrite N.
    destruct (get_original_url t (Py.lstrip "/" path)) as [u|];
      [destruct (String.eqb u ""); [|destruct (latin1_encodable u)]|];
      eexists; reflexivity.
  - intros code query H.
    rewrite lstrip_one_slash.
    destruct code as [|c code]; [reflexivity|].
    revert H. unfold Py.startswith. cbn [prefix append Py.lstrip Py.char_in].
    destruct (ascii_dec "/" c) as [<-|N].
    + destruct code; discriminate.
    + intros _. assert (E : Ascii.eqb c "/" = false).
      { apply Ascii.eqb_neq. congruence. }
      now rewrite E.
  - intros t code query Hr. apply reachable_store_inv in Hr.
    assert (X : all_in hex_chars (Py.lstrip "/" (code ++ String "?" query))
                = false) by apply lstrip_question_mark_not_hex.
    assert (P : Py.lstrip "/" ("/" ++ code ++ "?" ++ query)
                = Py.lstrip "/" (code ++ String "?" query)) by reflexivity.
    rewrite <- P in X.
    change (Py.lstrip "/" (code ++ "?" ++ query))
      with (Py.lstrip "/" ("/" ++ code ++ "?" ++ query)).
    apply handle_not_found.
    + intros E. rewrite E in X. discriminate X.
    + apply lookup_absent. intros Hin.
      apply (stored_code_hex t _ Hr) in Hin. congruence.
Qed.

Lemma do_GET_strips_only_slashes_witness :
  (Py.lstrip "/" "//a9b9f0" <> "" /\
   exists rest,
     fst (handle (run [AddUrl 10 "example.com"]) "//a9b9f0")
     = get_original_url_call "a9b9f0" :: rest) /\
  (Py.startswith "a9b9f0" "/" = false /\
   Py.lstrip "/" "/a9b9f0?utm=1" = "a9b9f0?utm=1") /\
  (reachable (run [AddUrl 10 "example.com"]) /\
   get_original_url (run [AddUrl 10 "example.com"]) "a9b9f0"
   = Some "http://example.com" /\
   status_of (fst (handle (run [AddUrl 10 "example.com"]) "/a9b9f0?utm=1"))
   = Some 404).
Proof.
  assert (N : Py.lstrip "/" "//a9b9f0" <> "") by discriminate.
  assert (S : Py.startswith "a9b9f0" "/" = false) by reflexivity.
  assert (R : reachable (run [AddUrl 10 "example.com"])) by (now eexists).
  destruct do_GET_strips_only_slashes as (_ & H2 & H3 & H4).
  split; [|split].
  - split; [exact N|].
    exact (H2 (run [AddUrl 10 "example.com"]) "//a9b9f0" N).
  - split; [exact S|]. exact (H3 "a9b9f0" "utm=1" S).
  - split; [exact R|]. split; [vm_compute; reflexivity|].
    change "/a9b9f0?utm=1" with ("/" ++ "a9b9f0" ++ "?" ++ "utm=1")%string.
    rewrite (H4 _ "a9b9f0" "utm=1" R). reflexivity.
Defined.

(* ================================================================= *)
(** ** Further invariants of the table *)

Import View.

Lemma reachable_steps (ops : list op) (t : table) :
  reachable t -> reachable (fold_left step ops t).
Proof.
  intros [ops0 ->]. exists (ops0 ++ ops). unfold run.
  now rewrite fold_left_app.
Qed.

Lemma code_of_row (t : table) (r : row) :
  store_inv t -> In r t ->
  short_code r = generate_short_code (original_url r).
Proof.
  intros Hinv Hin. pose proof (inv_code t Hinv) as H.
  rewrite Forall_forall in H. now apply H.
Qed.

Lemma same_code_same_row (t : table) (r r' : row) :
  NoDup (map short_code t) -> In r t -> In r' t ->
  short_code r' = short_code r -> r' = r.
Proof.
  intros Hnd Hr Hr' E.
  assert (X : In r' (filter (has_code (short_code r)) t)).
  { apply filter_In. split; [exact Hr'|].
    unfold has_code. now apply String.eqb_eq. }
  rewrite (filter_has_code_unique t r Hnd Hr) in X.
  destruct X as [X|[]]. now symmetry.
Qed.

(** Short codes are pairwise distinct in every table the program can
    build, and so are the URLs: no URL is stored twice. *)
Theorem stored_codes_and_urls_unique (t : table) :
  reachable t ->
  NoDup (map short_code t) /\ NoDup (map original_url t).
Proof.
  intros Hr. apply reachable_store_inv in Hr.
  pose proof (inv_unique t Hr) as Hu. split; [exact Hu|].
  assert (E : map short_code t
              = map generate_short_code (map original_url t)).
  { rewrite map_map. apply map_ext_in. intros r Hin.
    now apply (code_of_row t). }
  rewrite E in Hu. now apply NoDup_map_inv in Hu.
Qed.

Lemma stored_codes_and_urls_unique_witness :
  reachable (run [AddUrl 10 "example.com"; AddUrl 11 "http://example.com";
                  AddUrl 12 "https://example.org/848"]) /\
  NoDup (map original_url
           (run [AddUrl 10 "example.com"; AddUrl 11 "http://example.com";
                 AddUrl 12 "https://example.org/848"])).
Proof.
  assert (R : reachable
                (run [AddUrl 10 "example.com"; AddUrl 11 "http://example.com";
                      AddUrl 12 "https://example.org/848"]))
    by (now eexists).
  split; [exact R|].
  exact (proj2 (stored_codes_and_urls_unique _ R)).
Defined.

(** Every row of a table the program can build holds a URL that starts
    with "http://" or "https://" (so it is not empty) and, as its short
    code, the six hexadecimal digits generated from that URL. *)
Theorem stored_row_shape (t : table) (r : row) :
  reachable t -> In r t ->
  short_code r = generate_short_code (original_url r) /\
  String.length (short_code r) = 6%nat /\
  all_in hex_chars (short_code r) = true /\
  Py.startswith_any (original_url r) ["http://"; "https://"] = true /\
  original_url r <> "".
Proof.
  intros Hr Hin. apply reachable_store_inv in Hr.
  pose proof (code_of_row t r Hr Hin) as Hc.
  pose proof (inv_scheme t Hr) as Hs. rewrite Forall_forall in Hs.
  specialize (Hs r Hin).
  split; [exact Hc|]. rewrite Hc.
  split; [apply short_code_length|].
  split; [apply short_code_all_hex|].
  split; [exact Hs|].
  intros E. rewrite E in Hs. discriminate Hs.
Qed.

Lemma stored_row_shape_witness :
  reachable (run [AddUrl 10 "example.com"]) /\
  In (mkRow 1 "a9b9f0" "http://example.com" 10 0)
     (run [AddUrl 10 "example.com"]) /\
  "a9b9f0" = generate_short_code "http://example.com".
Proof.
  assert (R : reachable (run [AddUrl 10 "example.com"])) by (now eexists).
  assert (I : In (mkRow 1 "a9b9f0" "http://example.com" 10 0)
                 (run [AddUrl 10 "example.com"]))
    by (vm_compute; now left).
  split; [exact R|]. split; [exact I|].
  exact (proj1 (stored_row_shape _ _ R I)).
Defined.

Lemma max_app_one (l : list Z) (x : Z) :
  fold_right Z.max 0 (l ++ [x]) = Z.max x (fold_right Z.max 0 l).
Proof.
  induction l as [|a l IH]; cbn [app fold_right]; [reflexivity|].
  rewrite IH. lia.
Qed.

Lemma max_of_first_ids (n : nat) :
  fold_right Z.max 0 (map Z.of_nat (seq 1 n)) = Z.of_nat n.
Proof.
  induction n as [|n IH]; [reflexivity|].
  rewrite seq_S, map_app. cbn [map]. rewrite max_app_one, IH. lia.
Qed.

Lemma ids_after_increment (t : table) (code : string) :
  map id (increment_click_count t code) = map id t.
Proof.
  unfold increment_click_count, sql_update_clicks. rewrite map_map.
  apply map_ext. intros r. now destruct (has_code code r).
Qed.

Lemma length_after_increment (t : table) (code : string) :
  List.length (increment_click_count t code) = List.length t.
Proof.
  unfold increment_click_count, sql_update_clicks. apply length_map.
Qed.

Lemma ids_step (t : table) (o : op) :
  map id t = map Z.of_nat (seq 1 (List.length t)) ->
  map id (step t o) = map Z.of_nat (seq 1 (List.length (step t o))).
Proof.
  intros H. destruct o as [now url|c|c| |path]; cbn [step]; auto.
  - rewrite add_url_eq. cbv zeta.
    destruct (existsb (has_code _) t); cbn [snd]; [exact H|].
    rewrite map_app, length_app. cbn [map id List.length].
    rewrite Nat.add_1_r, seq_S, map_app, <- H. cbn [map].
    unfold next_id. rewrite H, max_of_first_ids. do 2 f_equal. lia.
  - now rewrite ids_after_increment, length_after_increment.
  - destruct (handle_table t path) as [-> | ->]; [exact H|].
    now rewrite ids_after_increment, length_after_increment.
Qed.

(** The rows of a table built on a fresh file are numbered 1, 2, 3, ... in
    the order of their insertion, whatever operations were run. *)
Theorem ids_count_from_one (ops : list op) :
  map id (run ops) = map Z.of_nat (seq 1 (List.length (run ops))).
Proof.
  unfold run.
  assert (G : forall t, map id t = map Z.of_nat (seq 1 (List.length t)) ->
                        map id (fold_left step ops t)
                        = map Z.of_nat
                            (seq 1 (List.length (fold_left step ops t)))).
  { induction ops as [|o ops IH]; intros t H; [exact H|].
    cbn [fold_left]. apply IH. now apply ids_step. }
  now apply G.
Qed.

Lemma keys_after_increment (t : table) (code : string) :
  map key_of (increment_click_count t code) = map key_of t.
Proof.
  unfold increment_click_count, sql_update_clicks. rewrite map_map.
  apply map_ext. intros r. now destruct (has_code code r).
Qed.

Lemma keys_after_step (t : table) (o : op) :
  exists rest, map key_of (step t o) = map key_of t ++ rest.
Proof.
  destruct o as [now url|c|c| |path]; cbn [step];
    try (exists []; now rewrite app_nil_r).
  - rewrite add_url_eq. cbv zeta.
    destruct (existsb (has_code _) t); cbn [snd].
    + exists []. now rewrite app_nil_r.
    + eexists. now rewrite map_app.
  - exists []. now rewrite app_nil_r, keys_after_increment.
  - destruct (handle_table t path) as [-> | ->]; exists [];
      now rewrite app_nil_r, ?keys_after_increment.
Qed.

(** No operation deletes a row or changes its id, short code, URL or
    creation time: after any operations the table starts with the rows it
    had, up to their click counts. *)
Theorem rows_never_deleted (ops : list op) (t : table) :
  exists rest, map key_of (fold_left step ops t) = map key_of t ++ rest.
Proof.
  revert t; induction ops as [|o ops IH]; intros t; cbn [fold_left].
  - exists []. now rewrite app_nil_r.
  - destruct (IH (step t o)) as [rest2 H2].
    destruct (keys_after_step t o) as [rest1 H1].
    exists (rest1 ++ rest2). now rewrite H2, H1, app_assoc.
Qed.

(* ================================================================= *)
(** ** Shortening, then looking up *)

Lemma lookup_kept_by_step (t : table) (o : op) (code u : string) :
  get_original_url t code = Some u ->
  get_original_url (step t o) code = Some u.
Proof.
  intros H. destruct o as [now url|c|c| |path]; cbn [step]; auto.
  - rewrite lookup_after_add_url. unfold sql_insert.
    destruct (existsb (has_code _) t) eqn:E; [exact H|].
    destruct (String.eqb_spec (generate_short_code (normalized url)) code)
      as [C|_]; [|exact H].
    rewrite lookup_absent in H; [discriminate H|].
    intros Hin. apply existsb_has_code_In in Hin. congruence.
  - now rewrite lookup_after_increment.
  - now rewrite lookup_after_handle.
Qed.

Lemma lookup_kept_by_steps (ops : list op) (t : table) (code u : string) :
  get_original_url t code = Some u ->
  get_original_url (fold_left step ops t) code = Some u.
Proof.
  revert t; induction ops as [|o ops IH]; intros t H; [exact H|].
  cbn [fold_left]. apply IH. now apply lookup_kept_by_step.
Qed.

Lemma lookup_of_returned_code (now : timestamp) (t : table)
      (url c : string) :
  store_inv t ->
  fst (add_url now t url) = Returned (Some c) ->
  get_original_url (snd (add_url now t url)) c = Some (normalized url).
Proof.
  intros Hinv. rewrite lookup_after_add_url, add_url_eq. cbv zeta.
  unfold sql_insert.
  destruct (existsb (has_code _) t); cbn [fst].
  - intros [= H]. apply fetchone_select_code_In in H
      as (r & Hin & Hu & Hc).
    unfold get_original_url, sql_select_url. rewrite <- Hc.
    rewrite (filter_has_code_unique t r (inv_unique t Hinv) Hin).
    cbn. now rewrite Hu.
  - intros [= <-]. now rewrite String.eqb_refl.
Qed.

(** Round trip: when [add_url] returns a short code on a table the program
    can build, looking that code up returns the normalized URL, at once
    and after any further operations. *)
Theorem shortened_url_stays_resolvable (now : timestamp) (t : table)
        (url c : string) (ops : list op) :
  reachable t ->
  fst (add_url now t url) = Returned (Some c) ->
  get_original_url (fold_left step ops (snd (add_url now t url))) c
  = Some (normalized url).
Proof.
  intros Hr H. apply reachable_store_inv in Hr.
  apply lookup_kept_by_steps. now apply lookup_of_returned_code.
Qed.

Lemma shortened_url_stays_resolvable_witness :
  reachable (run [AddUrl 12 "site3213.com"]) /\
  fst (add_url 13 (run [AddUrl 12 "site3213.com"]) "example.com")
  = Returned (Some "a9b9f0") /\
  get_original_url
    (fold_left step [DoGET "/a9b9f0"; AddUrl 14 "site3245.com";
                     IncrementClickCount "ed3f54"]
       (snd (add_url 13 (run [AddUrl 12 "site3213.com"]) "example.com")))
    "a9b9f0" = Some (normalized "example.com").
Proof.
  assert (R : reachable (run [AddUrl 12 "site3213.com"])) by (now eexists).
  assert (A : fst (add_url 13 (run [AddUrl 12 "site3213.com"]) "example.com")
              = Returned (Some "a9b9f0")) by (vm_compute; reflexivity).
  split; [exact R|]. split; [exact A|].
  exact (shortened_url_stays_resolvable 13 _ "example.com" "a9b9f0" _ R A).
Defined.

Lemma url_absent_when_code_taken (t : table) (url : string) :
  store_inv t -> code_taken_by_other t url = true ->
  existsb (has_code (generate_short_code url)) t = true /\
  sql_select_code t url = [].
Proof.
  intros Hinv H. unfold code_taken_by_other in H.
  apply existsb_exists in H as (r & Hin & H).
  apply andb_true_iff in H as [Hc Hu].
  split; [apply existsb_exists; now exists r|].
  apply select_code_nil_iff. intros Hin'.
  apply in_map_iff in Hin' as (r' & Hu' & Hr').
  assert (E : short_code r' = short_code r).
  { rewrite (code_of_row t r' Hinv Hr'), Hu'.
    unfold has_code in Hc. apply String.eqb_eq in Hc. now symmetry. }
  rewrite (same_code_same_row t r r' (inv_unique t Hinv) Hin Hr' E) in Hu'.
  unfold has_url in Hu. rewrite Hu', String.eqb_refl in Hu. discriminate Hu.
Qed.

(** On a table the program can build, [add_url] returns [None] exactly when
    another URL holds the short code of the normalized URL, and then the
    table is left as it was; otherwise it returns that short code. *)
Theorem add_url_fails_iff_code_taken (now : timestamp) (t : table)
        (url : string) :
  reachable t ->
  let c := generate_short_code (normalized url) in
  (code_taken_by_other t (normalized url) = true ->
   add_url now t url = (Returned None, t)) /\
  (code_taken_by_other t (normalized url) = false ->
   fst (add_url now t url) = Returned (Some c)) /\
  (fst (add_url now t url) = Returned None <->
   code_taken_by_other t (normalized url) = true).
Proof.
  intros Hr c. apply reachable_store_inv in Hr.
  assert (T : code_taken_by_other t (normalized url) = true ->
              add_url now t url = (Returned None, t)).
  { intros H.
    destruct (url_absent_when_code_taken t _ Hr H) as [Hex Hsel].
    rewrite add_url_eq. cbv zeta. now rewrite Hex, Hsel. }
  assert (F : code_taken_by_other t (normalized url) = false ->
              fst (add_url now t url) = Returned (Some c)).
  { intros H. rewrite add_url_eq. cbv zeta. fold c.
    destruct (existsb (has_code c) t) eqn:E; cbn [fst]; [|reflexivity].
    destruct (stored_once t _ Hr H E) as [Hsel _].
    fold c in Hsel. now rewrite Hsel. }
  split; [exact T|]. split; [exact F|].
  destruct (code_taken_by_other t (normalized url)) eqn:E.
  - split; [reflexivity|]. intros _. now rewrite T.
  - split; [|discriminate]. rewrite F by reflexivity. discriminate.
Qed.

Lemma add_url_fails_iff_code_taken_witness :
  reachable (run [AddUrl 12 "site3213.com"]) /\
  code_taken_by_other (run [AddUrl 12 "site3213.com"])
                      (normalized "site3245.com") = true /\
  add_url 13 (run [AddUrl 12 "site3213.com"]) "site3245.com"
  = (Returned None, run [AddUrl 12 "site3213.com"]).
Proof.
  assert (R : reachable (run [AddUrl 12 "site3213.com"])) by (now eexists).
  assert (C : code_taken_by_other (run [AddUrl 12 "site3213.com"])
                                  (normalized "site3245.com") = true)
    by (vm_compute; reflexivity).
  split; [exact R|]. split; [exact C|].
  exact (proj1 (add_url_fails_iff_code_taken 13 _ "site3245.com" R) C).
Defined.

Lemma add_url_table (now : timestamp) (t : table) (url : string) :
  snd (add_url now t url) =
  let c := generate_short_code (normalized url) in
  if existsb (has_code c) t then t
  else t ++ [mkRow (next_id t) c (normalized url) now 0].
Proof.
  rewrite add_url_eq. cbv zeta. now destruct (existsb (has_code _) t).
Qed.

(** Whatever the table, even one with colliding codes, a call of [add_url]
    adds at most one row, at the end, and a second call with the same URL
    adds none. *)
Theorem add_url_again_adds_nothing (now1 now2 : timestamp) (t : table)
        (url : string) :
  let t1 := snd (add_url now1 t url) in
  snd (add_url now2 t1 url) = t1 /\
  (exists rest, t1 = t ++ rest /\ (List.length rest <= 1)%nat).
Proof.
  intros t1. subst t1. rewrite (add_url_table now1). cbv zeta.
  destruct (existsb (has_code _) t) eqn:E.
  - rewrite add_url_table. cbv zeta. rewrite E. split; [reflexivity|].
    exists []. rewrite app_nil_r. split; [reflexivity | cbn; lia].
  - rewrite add_url_table. cbv zeta.
    rewrite existsb_app. cbn [existsb]. unfold has_code at 2.
    cbn [short_code]. rewrite String.eqb_refl, orb_true_r.
    split; [reflexivity|].
    eexists. split; [reflexivity | cbn; lia].
Qed.

Lemma normalized_computes (url : string) (b : bool) :
  Py.startswith_any url ["http://"; "https://"] = b ->
  normalized url = if b then url else ("http://" ++ url)%string.
Proof. intros <-. reflexivity. Qed.

(** The scheme test of [add_url] is a plain, case-sensitive prefix test:
    a URL is handled as its normalized form (normalizing twice changes
    nothing), and a URL with an upper-case or another scheme, like the
    empty string, gets "http://" in front. *)
Theorem add_url_scheme_test (now : timestamp) (t : table)
        (url rest : string) :
  add_url now t (normalized url) = add_url now t url /\
  add_url now t ("HTTP://" ++ rest) = add_url now t ("http://HTTP://" ++ rest)
  /\
  add_url now t ("Https://" ++ rest)
  = add_url now t ("http://Https://" ++ rest) /\
  add_url now t ("ftp://" ++ rest) = add_url now t ("http://ftp://" ++ rest)
  /\
  add_url now t "" = add_url now t "http://".
Proof.
  assert (P : forall a b, normalized a = normalized b ->
                          add_url now t a = add_url now t b).
  { intros a b E. now rewrite !add_url_eq, E. }
  split; [apply P, normalized_idempotent|].
  repeat split; apply P;
    (rewrite (normalized_computes _ false)
       by (unfold Py.startswith_any, Py.startswith; cbn;
           try reflexivity; now destruct rest));
    (rewrite (normalized_computes _ true)
       by (unfold Py.startswith_any, Py.startswith; cbn;
           try reflexivity; now destruct rest));
    reflexivity.
Qed.

(* ================================================================= *)
(** ** The handler on any table *)

Lemma lstrip_empty_iff (s : string) :
  Py.lstrip "/" s = "" <-> all_in "/" s = true.
Proof.
  induction s as [|c s IH]; [now split|].
  cbn [Py.lstrip all_in].
  destruct (Py.char_in c "/"); cbn [andb]; [exact IH|].
  split; discriminate.
Qed.

(** The home page is served exactly for the paths made of slashes only,
    the empty path and "/" among them; the table is then left alone and
    the shortener is not called. *)
Theorem home_page_iff_only_slashes (t : table) (path : string) :
  (all_in "/" path = true ->
   handle t path =
   ([send_response 200; send_header "Content-type" "text/html";
     end_headers; wfile_write home_page], t)) /\
  (status_of (fst (handle t path)) = Some 200 <-> all_in "/" path = true).
Proof.
  split.
  - intros H. apply handle_home. now apply lstrip_empty_iff.
  - rewrite <- lstrip_empty_iff, handle_eq. cbv zeta.
    destruct (String.eqb_spec (Py.lstrip "/" path) "") as [E|N].
    + now split.
    + split; [|intros E; now elim N].
      destruct (get_original_url t _) as [u|];
        [destruct (String.eqb u ""); [|destruct (latin1_encodable u)]|];
        discriminate.
Qed.

Lemma home_page_iff_only_slashes_witness :
  all_in "/" "///" = true /\
  status_of (fst (handle (run [AddUrl 10 "example.com"]) "///")) = Some 200.
Proof.
  assert (A : all_in "/" "///" = true) by reflexivity.
  split; [exact A|].
  exact (proj2 (proj2 (home_page_iff_only_slashes _ "///")) A).
Defined.

(** On any table, a request (HTTP/1.0 or later) ends in one of two ways.
    Either [do_GET] returns, and the response is exactly one status line,
    one header, the end of the headers and the body: 200 with the home
    page, or 301 with a [Location] that the lookup returned and that
    encodes in Latin-1 and no body, or 404 with the not-found page; the
    table is touched only with 301. Or the lookup returned a URL with a
    character outside Latin-1: the click is counted, the status line 301
    is buffered, [send_header] raises [UnicodeEncodeError], and neither a
    header nor the end of the headers follows. *)
Theorem response_well_formed (t : table) (path : string) :
  (serve t path = (Ok tt, fst (handle t path), snd (handle t path)) /\
   exists status keyword value body,
     response_of (fst (handle t path))
     = send_response status :: send_header keyword value :: end_headers
       :: map wfile_write body /\
     ((status = 200 /\ keyword = "Content-type" /\ body = [home_page] /\
       fst (handle t path) = response_of (fst (handle t path)) /\
       snd (handle t path) = t)
      \/
      (status = 301 /\ keyword = "Location" /\ body = [] /\
       get_original_url t (Py.lstrip "/" path) = Some value /\
       latin1_encodable value = true /\
       snd (handle t path)
       = increment_click_count t (Py.lstrip "/" path))
      \/
      (status = 404 /\ keyword = "Content-type" /\
       body = [not_found_page] /\ snd (handle t path) = t)))
  \/
  (exists url,
     get_original_url t (Py.lstrip "/" path) = Some url /\
     latin1_encodable url = false /\
     serve t path =
     (Raise UnicodeEncodeError,
      [get_original_url_call (Py.lstrip "/" path);
       increment_click_count_call (Py.lstrip "/" path);
       send_response 301],
      increment_click_count t (Py.lstrip "/" path)) /\
     handle t path =
     ([get_original_url_call (Py.lstrip "/" path);
       increment_click_count_call (Py.lstrip "/" path);
       send_response 301],
      increment_click_count t (Py.lstrip "/" path))).
Proof.
  rewrite handle_eq, serve_eq. cbv zeta.
  destruct (String.eqb (Py.lstrip "/" path) "").
  - left. split; [reflexivity|].
    exists 200, "Content-type", "text/html", [home_page].
    split; [reflexivity|]. left. repeat split; reflexivity.
  - destruct (get_original_url t (Py.lstrip "/" path)) as [u|];
      [destruct (String.eqb u "");
       [|destruct (latin1_encodable u) eqn:El]|].
    + left. split; [reflexivity|].
      exists 404, "Content-type", "text/html", [not_found_page].
      split; [reflexivity|]. right. right. repeat split; reflexivity.
    + left. split; [reflexivity|].
      exists 301, "Location", u, [].
      split; [reflexivity|]. right. left.
      repeat split; try reflexivity. exact El.
    + right. exists u. repeat split; try reflexivity. exact El.
    + left. split; [reflexivity|].
      exists 404, "Content-type", "text/html", [not_found_page].
      split; [reflexivity|]. right. right. repeat split; reflexivity.
Qed.

(** A row whose stored URL is the empty string (the program never writes
    one, another writer of the database file can) is treated as absent:
    the request gets 404 and the click count is not incremented. *)
Theorem empty_stored_url_is_not_found (t : table) (path : string) :
  Py.lstrip "/" path <> "" ->
  get_original_url t (Py.lstrip "/" path) = Some "" ->
  handle t path =
  ([get_original_url_call (Py.lstrip "/" path);
    send_response 404; send_header "Content-type" "text/html";
    end_headers; wfile_write not_found_page], t).
Proof.
  intros N L. rewrite handle_eq. cbv zeta.
  apply String.eqb_neq in N. now rewrite N, L.
Qed.

Lemma empty_stored_url_is_not_found_witness :
  Py.lstrip "/" "/abc123" <> "" /\
  get_original_url [mkRow 1 "abc123" "" 5 0] (Py.lstrip "/" "/abc123")
  = Some "" /\
  status_of (fst (handle [mkRow 1 "abc123" "" 5 0] "/abc123")) = Some 404 /\
  snd (handle [mkRow 1 "abc123" "" 5 0] "/abc123")
  = [mkRow 1 "abc123" "" 5 0].
Proof.
  assert (N : Py.lstrip "/" "/abc123" <> "") by discriminate.
  assert (L : get_original_url [mkRow 1 "abc123" "" 5 0]
                               (Py.lstrip "/" "/abc123") = Some "")
    by reflexivity.
  split; [exact N|]. split; [exact L|].
  rewrite (empty_stored_url_is_not_found _ "/abc123" N L).
  split; reflexivity.
Defined.

(* ================================================================= *)
(** ** Counting redirects *)

Lemma hex_code_not_stripped (c : string) :
  all_in hex_chars c = true -> Py.lstrip "/" c = c.
Proof.
  destruct c as [|a c]; [reflexivity|].
  cbn [all_in Py.lstrip]. intros H. apply andb_true_iff in H as [Ha _].
  destruct (Py.char_in a "/") eqn:E; [|reflexivity].
  cbn in E. destruct (Ascii.eqb_spec a "/") as [->|_]; discriminate.
Qed.

Lemma request_of_stored_code (t : table) (c : string) :
  store_inv t -> In c (map short_code t) ->
  snd (handle t ("/" ++ c)) = increment_click_count t c.
Proof.
  intros Hinv Hin.
  pose proof (stored_code_hex t c Hinv Hin) as Hhex.
  assert (Hs : Py.lstrip "/" ("/" ++ c) = c)
    by (rewrite lstrip_one_slash; now apply hex_code_not_stripped).
  apply in_map_iff in Hin as (r & Hc & Hr).
  assert (L : get_original_url t c = Some (original_url r)).
  { unfold get_original_url, sql_select_url. rewrite <- Hc.
    now rewrite (filter_has_code_unique t r (inv_unique t Hinv) Hr). }
  assert (N : c <> "").
  { intros E. pose proof (short_code_length (original_url r)) as Hl.
    rewrite <- (code_of_row t r Hinv Hr), Hc, E in Hl. discriminate Hl. }
  rewrite handle_eq. cbv zeta. rewrite Hs.
  apply String.eqb_neq in N. rewrite N, L.
  assert (U : original_url r <> "")
    by (apply (stored_url_not_empty t c); assumption).
  apply String.eqb_neq in U. rewrite U.
  now destruct (latin1_encodable (original_url r)).
Qed.

Lemma requests_of_stored_code (n : nat) (t : table) (c : string) :
  store_inv t -> In c (map short_code t) ->
  fold_left step (repeat (DoGET ("/" ++ c)) n) t
  = map (fun r => if has_code c r then clicked (Z.of_nat n) r else r) t.
Proof.
  revert t; induction n as [|n IH]; intros t Hinv Hin.
  - cbn [repeat fold_left Z.of_nat]. rewrite <- (map_id t) at 1.
    apply map_ext. intros r. rewrite clicked_zero.
    now destruct (has_code c r).
  - cbn [repeat fold_left step].
    rewrite (request_of_stored_code t c Hinv Hin).
    rewrite IH.
    + unfold increment_click_count, sql_update_clicks. rewrite map_map.
      apply map_ext. intros r.
      destruct (has_code c r) eqn:E.
      * assert (E' : has_code c (mkRow (id r) (short_code r) (original_url r)
                                       (created_at r) (click_count r + 1))
                     = true) by exact E.
        rewrite E'. unfold clicked. cbn. f_equal. lia.
      * now rewrite E.
    + now apply store_inv_increment.
    + unfold increment_click_count, sql_update_clicks. rewrite map_map.
      erewrite map_ext; [exact Hin|].
      intros r. now destruct (has_code c r).
Qed.

(** On a table the program can build, [n] requests for "/code" of a stored
    code add exactly [n] to its click count, leave the click counts of the
    other codes as they were, and change nothing else in the table. *)
Theorem redirects_count_clicks (t : table) (c : string) (k : Z) (n : nat) :
  reachable t ->
  clicks_of t c = Some k ->
  let t' := fold_left step (repeat (DoGET ("/" ++ c)) n) t in
  clicks_of t' c = Some (k + Z.of_nat n) /\
  (forall c', c' <> c -> clicks_of t' c' = clicks_of t c') /\
  map key_of t' = map key_of t.
Proof.
  intros Hr Hk t'. apply reachable_store_inv in Hr.
  assert (Hin : In c (map short_code t)).
  { unfold clicks_of in Hk.
    destruct (find (has_code c) t) as [r|] eqn:F; [|discriminate].
    apply find_some in F as [Hr' Hc]. unfold has_code in Hc.
    apply String.eqb_eq in Hc. rewrite <- Hc. now apply in_map. }
  subst t'. rewrite (requests_of_stored_code n t c Hr Hin).
  split; [|split].
  - unfold clicks_of in *.
    rewrite find_map_clicked
      by (intros r; destruct (has_code c r) eqn:E; exact E).
    destruct (find (has_code c) t) as [r|] eqn:F; [|discriminate].
    apply find_some in F as [_ F]. cbn in Hk. injection Hk as <-.
    cbn. now rewrite F.
  - intros c' Hne. unfold clicks_of.
    rewrite find_map_clicked
      by (intros r; destruct (has_code c r); reflexivity).
    destruct (find (has_code c') t) as [r|] eqn:F; [|reflexivity].
    apply find_some in F as [_ F]. cbn.
    assert (X : has_code c r = false).
    { unfold has_code in *. apply String.eqb_eq in F.
      apply String.eqb_neq. congruence. }
    now rewrite X.
  - rewrite map_map. apply map_ext. intros r.
    now destruct (has_code c r).
Qed.

Lemma redirects_count_clicks_witness :
  reachable (run [AddUrl 10 "example.com"; AddUrl 11 "site3213.com"]) /\
  clicks_of (run [AddUrl 10 "example.com"; AddUrl 11 "site3213.com"])
            "a9b9f0" = Some 0 /\
  clicks_of (fold_left step (repeat (DoGET "/a9b9f0") 5)
               (run [AddUrl 10 "example.com"; AddUrl 11 "site3213.com"]))
            "a9b9f0" = Some (0 + 5).
Proof.
  assert (R : reachable
                (run [AddUrl 10 "example.com"; AddUrl 11 "site3213.com"]))
    by (now eexists).
  assert (K : clicks_of
                (run [AddUrl 10 "example.com"; AddUrl 11 "site3213.com"])
                "a9b9f0" = Some 0) by (vm_compute; reflexivity).
  split; [exact R|]. split; [exact K|].
  exact (proj1 (redirects_count_clicks _ "a9b9f0" 0 5 R K)).
Defined.

(** Increments for two codes can be done in either order, and an
    increment changes no answer of the lookup. *)
Theorem increments_commute (t : table) (a b : string) :
  increment_click_count (increment_click_count t a) b
  = increment_click_count (increment_click_count t b) a /\
  (forall code,
     get_original_url (increment_click_count t a) code
     = get_original_url t code).
Proof.
  split; [|intros code; apply lookup_after_increment].
  unfold increment_click_count, sql_update_clicks. rewrite !map_map.
  apply map_ext. intros r.
  destruct (has_code a r) eqn:Ea, (has_code b r) eqn:Eb;
    unfold has_code in *; cbn [short_code]; rewrite ?Ea, ?Eb; reflexivity.
Qed.

(* ================================================================= *)
(** ** Further properties of the listing *)

Lemma insert_desc_oldest (r : row) (l : list row) :
  Forall (fun x => created_at r < created_at x) l ->
  insert_desc r l = l ++ [r].
Proof.
  induction 1 as [|x l Hx Hl IH]; [reflexivity|].
  cbn [insert_desc app].
  destruct (created_at x <=? created_at r) eqn:E.
  - apply Z.leb_le in E. lia.
  - now rewrite IH.
Qed.

(** When every row was created strictly later than the rows before it,
    the listing is the table in reverse order of insertion. *)
Theorem listing_reverses_insertion_order (t : table) :
  StronglySorted created_later t ->
  get_all_urls t = rev (map entry_of t).
Proof.
  intros H. unfold get_all_urls, sql_select_all. rewrite <- map_rev.
  f_equal. induction H as [|r t Hs IH Hall]; [reflexivity|].
  cbn [order_by_created_desc fold_right rev].
  fold (order_by_created_desc t). rewrite IH.
  apply insert_desc_oldest. now apply Forall_rev.
Qed.

Lemma listing_reverses_insertion_order_witness :
  StronglySorted created_later
    (run [AddUrl 10 "example.com"; AddUrl 11 "site3213.com";
          AddUrl 12 "https://example.org/848"]) /\
  get_all_urls (run [AddUrl 10 "example.com"; AddUrl 11 "site3213.com";
                     AddUrl 12 "https://example.org/848"])
  = [("78d0da", "https://example.org/848", 12, 0);
     ("ed3f54", "http://site3213.com", 11, 0);
     ("a9b9f0", "http://example.com", 10, 0)].
Proof.
  assert (S : StronglySorted created_later
                (run [AddUrl 10 "example.com"; AddUrl 11 "site3213.com";
                      AddUrl 12 "https://example.org/848"])).
  { vm_compute. repeat constructor; unfold created_later; cbn; lia. }
  split; [exact S|].
  rewrite (listing_reverses_insertion_order _ S). vm_compute. reflexivity.
Defined.

Lemma insert_desc_map (f : row -> row) (r : row) (l : list row) :
  (forall x, created_at (f x) = created_at x) ->
  insert_desc (f r) (map f l) = map f (insert_desc r l).
Proof.
  intros Hf. induction l as [|x l IH]; [reflexivity|].
  cbn [map insert_desc]. rewrite !Hf.
  destruct (created_at x <=? created_at r); [reflexivity|].
  cbn [map]. now rewrite IH.
Qed.

Lemma order_by_created_desc_map (f : row -> row) (t : table) :
  (forall x, created_at (f x) = created_at x) ->
  order_by_created_desc (map f t) = map f (order_by_created_desc t).
Proof.
  intros Hf. unfold order_by_created_desc.
  induction t as [|r t IH]; [reflexivity|].
  cbn [map fold_right]. rewrite IH. now apply insert_desc_map.
Qed.

(** A click does not reorder the listing: the listing after an increment
    is the listing before it with the click counts of that code
    incremented in place. *)
Theorem click_keeps_listing_order (t : table) (code : string) :
  get_all_urls (increment_click_count t code)
  = map entry_of (increment_click_count (order_by_created_desc t) code).
Proof.
  unfold get_all_urls, sql_select_all. f_equal.
  unfold increment_click_count, sql_update_clicks.
  apply order_by_created_desc_map.
  intros x. now destruct (has_code code x).
Qed.

(* ================================================================= *)
(** ** The analytics table of the form *)

Lemma len_app (a b : string) :
  PyStr.len (a ++ b) = (PyStr.len a + PyStr.len b)%nat.
Proof.
  induction a as [|c a IH]; [reflexivity|].
  cbn [append PyStr.len]. rewrite IH.
  now destruct (PyStr.continuation c).
Qed.

Lemma len_slice_chars (n : nat) (s : string) :
  PyStr.len (PyStr.slice_chars n s) = Nat.min n (PyStr.len s).
Proof.
  revert n; induction s as [|c s IH]; intros n; cbn [PyStr.slice_chars].
  - cbn. lia.
  - cbn [PyStr.len]. destruct (PyStr.continuation c) eqn:E.
    + cbn [PyStr.len]. now rewrite E, IH.
    + destruct n as [|n]; [reflexivity|].
      cbn [PyStr.len]. rewrite E, IH. reflexivity.
Qed.

Lemma slice_chars_prefix (n : nat) (s : string) :
  String.prefix (PyStr.slice_chars n s) s = true.
Proof.
  revert n; induction s as [|c s IH]; intros n; [reflexivity|].
  cbn [PyStr.slice_chars].
  destruct (PyStr.continuation c); [|destruct n as [|n]; [reflexivity|]];
    cbn [prefix]; (destruct (ascii_dec c c) as [_|N]; [apply IH | now elim N]).
Qed.

(** The URL shown in a line of the analytics table is the stored URL when
    that has at most 50 characters, and otherwise its first 50 characters
    followed by three dots: never more than 53 characters. *)
Theorem display_url_bounded (u : string) :
  ((PyStr.len u <= 50)%nat -> Form.display_url u = u) /\
  ((50 < PyStr.len u)%nat ->
   Form.display_url u = (PyStr.slice_chars 50 u ++ "...")%string /\
   String.prefix (PyStr.slice_chars 50 u) u = true /\
   PyStr.len (PyStr.slice_chars 50 u) = 50%nat /\
   PyStr.len (Form.display_url u) = 53%nat) /\
  (PyStr.len (Form.display_url u) <= 53)%nat.
Proof.
  unfold Form.display_url.
  destruct (50 <? PyStr.len u)%nat eqn:E.
  - apply Nat.ltb_lt in E.
    assert (L : PyStr.len (PyStr.slice_chars 50 u) = 50%nat)
      by (rewrite len_slice_chars; lia).
    split; [lia|]. split.
    + intros _. split; [reflexivity|].
      split; [apply slice_chars_prefix|]. split; [exact L|].
      rewrite len_app, L. reflexivity.
    + rewrite len_app, L. cbn. lia.
  - apply Nat.ltb_ge in E. split; [reflexivity|]. split; lia.
Qed.

Lemma display_url_bounded_witness :
  (50 < PyStr.len
          "https://example.org/a/very/long/path/that/goes/on/and/on/index")%nat
  /\
  Form.display_url
    "https://example.org/a/very/long/path/that/goes/on/and/on/index"
  = "https://example.org/a/very/long/path/that/goes/on/..." /\
  (PyStr.len "http://example.com" <= 50)%nat /\
  Form.display_url "http://example.com" = "http://example.com".
Proof.
  assert (A : (50 < PyStr.len
      "https://example.org/a/very/long/path/that/goes/on/and/on/index")%nat)
    by (vm_compute; lia).
  assert (B : (PyStr.len "http://example.com" <= 50)%nat)
    by (vm_compute; lia).
  split; [exact A|]. split.
  - rewrite (proj1 (proj1 (proj2 (display_url_bounded _)) A)).
    vm_compute. reflexivity.
  - split; [exact B|]. exact (proj1 (display_url_bounded _) B).
Defined.

Lemma delete_every_child {A : Type} (children : list A)
      (tr : list Form.item) :
  (List.length tr <= List.length children)%nat ->
  fold_left (fun tr _ => Form.tree_delete_first tr) children tr = [].
Proof.
  revert tr; induction children as [|x l IH]; intros tr H; cbn [fold_left].
  - destruct tr; [reflexivity | cbn in H; lia].
  - apply IH. destruct tr; cbn in *; lia.
Qed.

Lemma insert_every_line
      (urls : list (string * string * timestamp * Z))
      (tr : list Form.item) :
  fold_left
    (fun tr url_data =>
       let '(short_code, original_url, created_at, click_count) :=
         url_data in
       Form.tree_insert_end tr
         (short_code, Form.display_url original_url, created_at, click_count))
    urls tr
  = tr ++ map line_of urls.
Proof.
  revert tr; induction urls as [|[[[c u] ts] k] urls IH]; intros tr;
    cbn [fold_left map].
  - now rewrite app_nil_r.
  - rewrite IH. unfold Form.tree_insert_end.
    now rewrite <- app_assoc.
Qed.

Lemma refresh_analytics_eq (g : Form.gui) :
  Form.refresh_analytics g =
  Form.mkGui (Form.db g) (Form.url_var g) (Form.result_var g)
             (Form.copy_btn_state g) (Form.open_btn_state g)
             (map line_of (get_all_urls (Form.db g))) (Form.effects g).
Proof.
  unfold Form.refresh_analytics. cbv zeta.
  rewrite delete_every_child by lia.
  now rewrite insert_every_line.
Qed.

(** [refresh_analytics] replaces whatever the analytics table showed by
    one line per row of the database, in the order of [get_all_urls], and
    changes nothing else of the form; refreshing twice is refreshing
    once. *)
Theorem refresh_analytics_shows_table (g : Form.gui) :
  Form.refresh_analytics g =
  Form.mkGui (Form.db g) (Form.url_var g) (Form.result_var g)
             (Form.copy_btn_state g) (Form.open_btn_state g)
             (map line_of (get_all_urls (Form.db g))) (Form.effects g) /\
  List.length (Form.tree (Form.refresh_analytics g))
  = List.length (Form.db g) /\
  Form.refresh_analytics (Form.refresh_analytics g)
  = Form.refresh_analytics g.
Proof.
  split; [apply refresh_analytics_eq|]. split.
  - rewrite refresh_analytics_eq. cbn [Form.tree].
    rewrite length_map. unfold get_all_urls, sql_select_all.
    rewrite length_map.
    apply Permutation_length, order_by_created_desc_perm.
  - now rewrite !refresh_analytics_eq.
Qed.

(* ================================================================= *)
(** ** Shortening from the form *)

Lemma drop_spaces_blank (backwards : bool) (s : string) :
  blank s = true -> PyStr.drop_spaces backwards s = "".
Proof.
  induction s as [|c s IH]; [reflexivity|].
  cbn [blank PyStr.drop_spaces]. intros H.
  apply andb_true_iff in H as [Hc Hs]. rewrite Hc. now apply IH.
Qed.

Lemma strip_blank (s : string) : blank s = true -> PyStr.strip s = "".
Proof.
  intros H. unfold PyStr.strip. now rewrite (drop_spaces_blank false s H).
Qed.

(** With an empty entry, or one that holds only spaces, tabs or line
    breaks, [shorten_url] shows the error box and does nothing else: the
    database, the result, the buttons and the table stay as they were. *)
Theorem shorten_url_blank_input (now : timestamp) (g : Form.gui) :
  (blank (Form.url_var g) = true -> PyStr.strip (Form.url_var g) = "") /\
  (PyStr.strip (Form.url_var g) = "" ->
   Form.shorten_url now g
   = Form.say (Form.showerror "Error" "Please enter a URL to shorten.") g).
Proof.
  split; [apply strip_blank|].
  intros E. unfold Form.shorten_url. cbv zeta. now rewrite E.
Qed.

Lemma shorten_url_blank_input_witness :
  blank "   " = true /\
  Form.shorten_url 10 (Form.mkGui [] "   " "" "disabled" "disabled" [] [])
  = Form.mkGui [] "   " "" "disabled" "disabled" []
      [Form.showerror "Error" "Please enter a URL to shorten."].
Proof.
  assert (B : blank "   " = true) by reflexivity.
  split; [exact B|].
  destruct (shorten_url_blank_input
              10 (Form.mkGui [] "   " "" "disabled" "disabled" [] []))
    as [H1 H2].
  rewrite (H2 (H1 B)). reflexivity.
Defined.

Lemma returned_code_generated (now : timestamp) (t : table) (url c : string) :
  store_inv t ->
  fst (add_url now t url) = Returned (Some c) ->
  c = generate_short_code (normalized url).
Proof.
  intros Hinv. rewrite add_url_eq. cbv zeta.
  destruct (existsb (has_code _) t); cbn [fst].
  - intros [= H]. apply fetchone_select_code_In in H
      as (r & Hin & Hu & Hc).
    rewrite <- Hc, <- Hu. now apply (code_of_row t).
  - now intros [= <-].
Qed.

Lemma add_url_returns (now : timestamp) (t : table) (url : string) :
  exists v, fst (add_url now t url) = Returned v.
Proof.
  rewrite add_url_eq. cbv zeta.
  destruct (existsb (has_code _) t); eexists; reflexivity.
Qed.

Lemma add_url_none_table (now : timestamp) (t : table) (url : string) :
  fst (add_url now t url) = Returned None -> snd (add_url now t url) = t.
Proof.
  rewrite add_url_eq. cbv zeta.
  destruct (existsb (has_code _) t); cbn [fst snd];
    [reflexivity | discriminate].
Qed.

Lemma short_code_nonempty (url : string) :
  Form.nonempty (generate_short_code url) = true.
Proof.
  unfold Form.nonempty. apply negb_true_iff, String.eqb_neq.
  intros E. pose proof (short_code_length url) as H.
  rewrite E in H. discriminate H.
Qed.

Lemma shorten_url_success_eq (now : timestamp) (g : Form.gui) (c : string) :
  store_inv (Form.db g) ->
  PyStr.strip (Form.url_var g) <> "" ->
  fst (add_url now (Form.db g) (PyStr.strip (Form.url_var g)))
  = Returned (Some c) ->
  Form.shorten_url now g =
  let t' := snd (add_url now (Form.db g) (PyStr.strip (Form.url_var g))) in
  Form.mkGui t' (Form.url_var g) (Form.short_url_of c) "normal" "normal"
    (map line_of (get_all_urls t'))
    (Form.effects g ++
     [Form.showinfo "Success"
        ("URL shortened successfully!
Short URL: " ++ Form.short_url_of c)%string]).
Proof.
  intros Hinv N A.
  pose proof (returned_code_generated now _ _ c Hinv A) as Hc.
  unfold Form.shorten_url. cbv zeta.
  unfold Form.nonempty at 1. apply String.eqb_neq in N. rewrite N.
  cbn [negb].
  destruct (add_url now (Form.db g) (PyStr.strip (Form.url_var g)))
    as [r t'] eqn:E.
  cbn [fst snd] in *. subst r.
  rewrite Hc at 1. rewrite short_code_nonempty.
  rewrite refresh_analytics_eq. reflexivity.
Qed.



(** When another URL holds the short code, [shorten_url] shows the failure
    box and changes nothing else: a result shown earlier stays on
    display. *)
Theorem shorten_url_collision (now : timestamp) (g : Form.gui) :
  PyStr.strip (Form.url_var g) <> "" ->
  fst (add_url now (Form.db g) (PyStr.strip (Form.url_var g)))
  = Returned None ->
  Form.shorten_url now g
  = Form.say (Form.showerror "Error" "Failed to shorten URL.") g.
Proof.
  intros N A. pose proof (add_url_none_table now _ _ A) as T.
  unfold Form.shorten_url. cbv zeta.
  unfold Form.nonempty at 1. apply String.eqb_neq in N. rewrite N.
  cbn [negb].
  destruct (add_url now (Form.db g) (PyStr.strip (Form.url_var g)))
    as [r t'].
  cbn [fst snd] in *. subst r t'. now destruct g.
Qed.

Lemma shorten_url_collision_witness :
  Form.result_var
    (Form.session [Form.Edit "site3213.com"; Form.Shorten 12;
                   Form.Edit "site3245.com"; Form.Shorten 13])
  = "http://localhost:8080/ed3f54" /\
  Form.effects
    (Form.session [Form.Edit "site3213.com"; Form.Shorten 12;
                   Form.Edit "site3245.com"; Form.Shorten 13])
  = [Form.showinfo "Success"
       "URL shortened successfully!
Short URL: http://localhost:8080/ed3f54";
     Form.showerror "Error" "Failed to shorten URL."].
Proof.
  assert (N : PyStr.strip
                (Form.url_var
                   (Form.session [Form.Edit "site3213.com"; Form.Shorten 12;
                                  Form.Edit "site3245.com"])) <> "")
    by (vm_compute; discriminate).
  assert (A : fst (add_url 13
                     (Form.db
                        (Form.session [Form.Edit "site3213.com";
                                       Form.Shorten 12;
                                       Form.Edit "site3245.com"]))
                     (PyStr.strip
                        (Form.url_var
                           (Form.session [Form.Edit "site3213.com";
                                          Form.Shorten 12;
                                          Form.Edit "site3245.com"]))))
              = Returned None) by (vm_compute; reflexivity).
  pose proof (shorten_url_collision 13 _ N A) as H.
  change (Form.session [Form.Edit "site3213.com"; Form.Shorten 12;
                        Form.Edit "site3245.com"; Form.Shorten 13])
    with (Form.shorten_url 13
            (Form.session [Form.Edit "site3213.com"; Form.Shorten 12;
                           Form.Edit "site3245.com"])).
  rewrite H. split; vm_compute; reflexivity.
Defined.

(* ================================================================= *)
(** ** What the form shows and hands out *)

Lemma resolves_step (t : table) (o : op) (text : string) :
  resolves t text -> resolves (step t o) text.
Proof.
  intros (c & u & E & L). exists c, u. split; [exact E|].
  now apply lookup_kept_by_step.
Qed.

Lemma clipboard_after_say (e : Form.effect) (g : Form.gui) :
  Form.clipboard_of (Form.effects (Form.say e g)) =
  match e with
  | Form.clipboard_clear => ""
  | Form.clipboard_append text =>
      (Form.clipboard_of (Form.effects g) ++ text)%string
  | _ => Form.clipboard_of (Form.effects g)
  end.
Proof.
  unfold Form.say, Form.clipboard_of. cbn [Form.effects].
  rewrite fold_left_app. cbn [fold_left]. now destruct e.
Qed.

(** A message box keeps the invariant. *)
Lemma form_inv_say_box (e : Form.effect) (g : Form.gui) :
  handed_out e = [] ->
  match e with
  | Form.clipboard_clear | Form.clipboard_append _ => False
  | _ => True
  end ->
  form_inv g -> form_inv (Form.say e g).
Proof.
  intros He Hbox (Hs & Hshown & Hh & Hc).
  split; [exact Hs|]. split; [exact Hshown|]. split.
  - unfold handed_ok in *. cbn [Form.say Form.effects Form.db].
    apply Forall_app. split; [exact Hh|].
    constructor; [|constructor]. rewrite He. constructor.
  - unfold clipboard_ok in *. rewrite clipboard_after_say.
    cbn [Form.say Form.db].
    destruct e; try exact Hc; contradiction.
Qed.

(** A change of the database by an operation keeps the invariant. *)
Lemma form_inv_db_step (g : Form.gui) (o : op) :
  form_inv g ->
  form_inv (Form.mkGui (step (Form.db g) o) (Form.url_var g)
              (Form.result_var g) (Form.copy_btn_state g)
              (Form.open_btn_state g) (Form.tree g) (Form.effects g)).
Proof.
  intros (Hs & Hshown & Hh & Hc).
  split; [now apply store_inv_step|]. split; [|split].
  - destruct Hshown as [H|(H & H1 & H2)]; [now left|].
    right. cbn. split; [now apply resolves_step | now split].
  - unfold handed_ok in *. cbn [Form.effects Form.db].
    eapply Forall_impl; [|exact Hh].
    intros e He. eapply Forall_impl; [|exact He].
    intros x. apply resolves_step.
  - destruct Hc as [H|H]; [now left|].
    right. cbn. now apply resolves_step.
Qed.

Lemma form_inv_other_fields (g : Form.gui) (text : string)
      (tr : list Form.item) :
  form_inv g ->
  form_inv (Form.mkGui (Form.db g) text (Form.result_var g)
              (Form.copy_btn_state g) (Form.open_btn_state g) tr
              (Form.effects g)).
Proof. intros H. exact H. Qed.

Lemma form_inv_shorten (now : timestamp) (g : Form.gui) :
  form_inv g -> form_inv (Form.shorten_url now g).
Proof.
  intros H.
  destruct (String.eqb_spec (PyStr.strip (Form.url_var g)) "") as [E|N].
  - rewrite (proj2 (shorten_url_blank_input now g) E).
    now apply form_inv_say_box.
  - destruct (add_url_returns now (Form.db g) (PyStr.strip (Form.url_var g)))
      as [[c|] A].
    + pose proof H as (Hs & _).
      rewrite (shorten_url_success_eq now g c Hs N A). cbv zeta.
      pose proof (form_inv_db_step g
                    (AddUrl now (PyStr.strip (Form.url_var g))) H)
        as (Hs' & _ & Hh' & Hc').
      cbn [step] in Hs', Hh', Hc'.
      split; [exact Hs'|]. split; [|split].
      * right. cbn. split; [|now split].
        exists c, (normalized (PyStr.strip (Form.url_var g))).
        split; [reflexivity|].
        now apply lookup_of_returned_code.
      * unfold handed_ok in *. cbn [Form.effects Form.db] in *.
        apply Forall_app. split; [exact Hh'|].
        repeat constructor.
      * unfold clipboard_ok in *. cbn [Form.effects Form.db] in *.
        unfold Form.clipboard_of in *. rewrite fold_left_app.
        exact Hc'.
    + rewrite (shorten_url_collision now g N A).
      now apply form_inv_say_box.
Qed.

Lemma form_inv_copy (g : Form.gui) :
  form_inv g -> form_inv (Form.copy_result g).
Proof.
  intros H. unfold Form.copy_result. cbv zeta.
  unfold Form.nonempty.
  destruct (String.eqb_spec (Form.result_var g) "") as [E|N]; [exact H|].
  cbn [negb]. destruct H as (Hs & Hshown & Hh & Hc).
  assert (R : resolves (Form.db g) (Form.result_var g)).
  { destruct Hshown as [(E & _)|(R & _)]; [now elim N | exact R]. }
  split; [exact Hs|]. split; [exact Hshown|]. split.
  - unfold handed_ok in *. cbn [Form.say Form.effects Form.db].
    repeat (apply Forall_app; split); try exact Hh;
      repeat constructor. exact R.
  - right. rewrite !clipboard_after_say. exact R.
Qed.

Lemma form_inv_open (g : Form.gui) :
  form_inv g -> form_inv (Form.open_result g).
Proof.
  intros H. unfold Form.open_result. cbv zeta.
  unfold Form.nonempty.
  destruct (String.eqb_spec (Form.result_var g) "") as [E|N]; [exact H|].
  cbn [negb]. destruct H as (Hs & Hshown & Hh & Hc).
  assert (R : resolves (Form.db g) (Form.result_var g)).
  { destruct Hshown as [(E & _)|(R & _)]; [now elim N | exact R]. }
  split; [exact Hs|]. split; [exact Hshown|]. split.
  - unfold handed_ok in *. cbn [Form.say Form.effects Form.db].
    apply Forall_app. split; [exact Hh|]. repeat constructor. exact R.
  - unfold clipboard_ok in *. rewrite clipboard_after_say. exact Hc.
Qed.

Lemma form_inv_act (g : Form.gui) (a : Form.action) :
  form_inv g -> form_inv (Form.act g a).
Proof.
  intros H. destruct a as [text|now| | | |path]; cbn [Form.act].
  - exact H.
  - now apply form_inv_shorten.
  - now apply form_inv_copy.
  - now apply form_inv_open.
  - rewrite refresh_analytics_eq. exact H.
  - exact (form_inv_db_step g (DoGET path) H).
Qed.

Lemma form_inv_init : form_inv (Form.init None).
Proof.
  unfold Form.init. rewrite refresh_analytics_eq.
  split; [apply store_inv_nil|]. split; [|split].
  - left. now repeat split.
  - constructor.
  - now left.
Qed.

(** Whatever the user and the clients of the listener do, from start-up
    on a fresh database: the form shows either no result, with "Copy" and
    "Open" disabled, or a short URL whose code is stored, with both
    enabled; every text it put on the clipboard or opened in the browser
    is such a short URL; and the database keeps its invariant. *)
Theorem form_hands_out_resolvable_urls (actions : list Form.action) :
  let g := Form.session actions in
  shown_ok g /\ handed_ok g /\ clipboard_ok g /\
  NoDup (map short_code (Form.db g)).
Proof.
  cbv zeta.
  assert (G : form_inv (Form.session actions)).
  { unfold Form.session.
    assert (X : forall g, form_inv g ->
                          form_inv (fold_left Form.act actions g)).
    { induction actions as [|a l IH]; intros g H; [exact H|].
      cbn [fold_left]. apply IH. now apply form_inv_act. }
    apply X, form_inv_init. }
  destruct G as (Hs & H1 & H2 & H3).
  repeat (split; [assumption|]). apply Hs.
Qed.

(** "Copy" with a result on display replaces whatever the clipboard held
    by that result and shows a box; "Open" hands that result to the
    browser once; with no result on display neither does anything. *)
Theorem copy_and_open_use_the_result (g : Form.gui) :
  (Form.result_var g = "" ->
   Form.copy_result g = g /\ Form.open_result g = g) /\
  (Form.result_var g <> "" ->
   Form.clipboard_of (Form.effects (Form.copy_result g)) = Form.result_var g
   /\ Form.effects (Form.copy_result g)
      = Form.effects g ++
        [Form.clipboard_clear; Form.clipboard_append (Form.result_var g);
         Form.showinfo "Copied" "Shortened URL copied to clipboard!"]
   /\ Form.effects (Form.open_result g)
      = Form.effects g ++ [Form.webbrowser_open (Form.result_var g)]
   /\ Form.db (Form.copy_result g) = Form.db g
   /\ Form.db (Form.open_result g) = Form.db g).
Proof.
  unfold Form.copy_result, Form.open_result, Form.nonempty. cbv zeta.
  split.
  - intros E. rewrite E. cbn. now split.
  - intros N. apply String.eqb_neq in N. rewrite N. cbn [negb].
    split.
    + now rewrite !clipboard_after_say.
    + cbn [Form.say Form.effects Form.db].
      rewrite <- !app_assoc. now repeat split.
Qed.

Lemma copy_and_open_use_the_result_witness :
  Form.result_var (Form.session [Form.Edit "example.com"; Form.Shorten 10])
  <> "" /\
  Form.clipboard_of
    (Form.effects
       (Form.copy_result
          (Form.copy_result
             (Form.session [Form.Edit "example.com"; Form.Shorten 10]))))
  = "http://localhost:8080/a9b9f0".
Proof.
  assert (N : Form.result_var
                (Form.session [Form.Edit "example.com"; Form.Shorten 10])
              <> "") by (vm_compute; discriminate).
  split; [exact N|].
  assert (N2 : Form.result_var
                 (Form.copy_result
                    (Form.session [Form.Edit "example.com";
                                   Form.Shorten 10])) <> "")
    by (vm_compute; discriminate).
  rewrite (proj1 (proj2 (copy_and_open_use_the_result _) N2)).
  vm_compute. reflexivity.
Defined.

(* ================================================================= *)
(** ** Stripping the entry *)

Lemma list_of_string_app (a b : string) :
  list_ascii_of_string (a ++ b)
  = list_ascii_of_string a ++ list_ascii_of_string b.
Proof.
  induction a as [|c a IH]; [reflexivity|]. cbn. now rewrite IH.
Qed.

Lemma string_of_list_app (l1 l2 : list ascii) :
  string_of_list_ascii (l1 ++ l2)
  = (string_of_list_ascii l1 ++ string_of_list_ascii l2)%string.
Proof.
  induction l1 as [|c l IH]; [reflexivity|]. cbn. now rewrite IH.
Qed.

Lemma reverse_involutive (s : string) : PyStr.reverse (PyStr.reverse s) = s.
Proof.
  unfold PyStr.reverse.
  now rewrite list_ascii_of_string_of_list_ascii, rev_involutive,
    string_of_list_ascii_of_string.
Qed.

Lemma reverse_app (a b : string) :
  PyStr.reverse (a ++ b) = (PyStr.reverse b ++ PyStr.reverse a)%string.
Proof.
  unfold PyStr.reverse.
  now rewrite list_of_string_app, rev_app_distr, string_of_list_app.
Qed.

Lemma drop_spaces_spec (backwards : bool) (n : nat) :
  forall s, (String.length s <= n)%nat ->
  (exists p, s = (p ++ PyStr.drop_spaces backwards s)%string) /\
  (forall c rest, PyStr.drop_spaces backwards s = String c rest ->
                  PyStr.space1 c = false).
Proof.
  induction n as [|n IH]; intros s H.
  - destruct s; [|cbn in H; lia].
    split; [now exists "" | discriminate].
  - destruct s as [|c1 s1]; [split; [now exists "" | discriminate]|].
    cbn [PyStr.drop_spaces]. cbn [String.length] in H.
    destruct (PyStr.space1 c1) eqn:E1.
    { destruct (IH s1) as [[p Hp] Hh]; [lia|].
      split; [|exact Hh].
      exists (String c1 p). cbn [append]. now rewrite <- Hp. }
    destruct s1 as [|c2 s2];
      [split; [now exists "" | now intros c rest [= <- _]]|].
    cbn [String.length] in H.
    destruct (if backwards then PyStr.space2 c2 c1 else PyStr.space2 c1 c2).
    { destruct (IH s2) as [[p Hp] Hh]; [lia|].
      split; [|exact Hh].
      exists (String c1 (String c2 p)). cbn [append]. now rewrite <- Hp. }
    destruct s2 as [|c3 s3];
      [split; [now exists "" | now intros c rest [= <- _]]|].
    cbn [String.length] in H.
    destruct (if backwards then PyStr.space3 c3 c2 c1
              else PyStr.space3 c1 c2 c3).
    { destruct (IH s3) as [[p Hp] Hh]; [lia|].
      split; [|exact Hh].
      exists (String c1 (String c2 (String c3 p))). cbn [append].
      now rewrite <- Hp. }
    split; [now exists "" | now intros c rest [= <- _]].
Qed.

(** What [shorten_url] passes on is a piece of the entry: the entry is
    some text, then the stripped entry, then some text; and the stripped
    entry neither starts nor ends with a space, a tab or a line break. *)
Theorem strip_keeps_the_middle (s : string) :
  (exists lead trail, s = (lead ++ PyStr.strip s ++ trail)%string) /\
  (forall c rest, PyStr.strip s = String c rest -> PyStr.space1 c = false) /\
  (forall c rest, PyStr.reverse (PyStr.strip s) = String c rest ->
                  PyStr.space1 c = false).
Proof.
  unfold PyStr.strip.
  destruct (drop_spaces_spec false _ s (le_n _)) as [[p Hp] Hh].
  destruct (drop_spaces_spec true _
              (PyStr.reverse (PyStr.drop_spaces false s)) (le_n _))
    as [[q Hq] Hh'].
  set (d := PyStr.drop_spaces false s) in *.
  set (e := PyStr.drop_spaces true (PyStr.reverse d)) in *.
  assert (D : d = (PyStr.reverse e ++ PyStr.reverse q)%string).
  { rewrite <- reverse_app, <- Hq. symmetry. apply reverse_involutive. }
  split; [|split].
  - exists p, (PyStr.reverse q). now rewrite <- D.
  - intros c rest E. apply (Hh c (rest ++ PyStr.reverse q)%string).
    now rewrite D, E.
  - intros c rest E. rewrite reverse_involutive in E. now apply (Hh' c rest).
Qed.

(* ================================================================= *)
(** ** Where the rows come from *)

Lemma rows_come_from_add_url (ops : list op) :
  forall t r,
    In r (fold_left step ops t) ->
    (exists r0, In r0 t /\ key_of r0 = key_of r) \/
    (exists now url,
       In (AddUrl now url) ops /\
       original_url r = normalized url /\ created_at r = now /\
       short_code r = generate_short_code (normalized url)).
Proof.
  induction ops as [|o ops IH]; intros t r Hin; cbn [fold_left] in Hin.
  - left. now exists r.
  - destruct (IH _ _ Hin) as [(r1 & Hin1 & K1)|(now & url & Ho & H)].
    + assert (S : (exists r0, In r0 t /\ key_of r0 = key_of r1) \/
                  (exists now url, o = AddUrl now url /\
                     original_url r1 = normalized url /\
                     created_at r1 = now /\
                     short_code r1 = generate_short_code (normalized url))).
      { destruct o as [now url|c|c| |path]; cbn [step] in Hin1.
        - rewrite add_url_table in Hin1. cbv zeta in Hin1.
          destruct (existsb (has_code _) t).
          + left. now exists r1.
          + apply in_app_or in Hin1 as [Hin1|[<-|[]]].
            * left. now exists r1.
            * right. exists now, url. now repeat split.
        - left. now exists r1.
        - left. apply (in_map key_of) in Hin1.
          rewrite keys_after_increment in Hin1.
          apply in_map_iff in Hin1 as (r0 & K0 & H0). now exists r0.
        - left. now exists r1.
        - left. destruct (handle_table t path) as [E|E]; rewrite E in Hin1.
          + now exists r1.
          + apply (in_map key_of) in Hin1.
            rewrite keys_after_increment in Hin1.
            apply in_map_iff in Hin1 as (r0 & K0 & H0). now exists r0. }
      destruct S as [(r0 & H0 & K0)|(now & url & -> & Hu & Hc & Hs)].
      * left. exists r0. split; [exact H0 | congruence].
      * right. exists now, url. split; [now left|].
        unfold key_of in K1. injection K1 as _ Hk2 Hk3 Hk4.
        repeat split; congruence.
    + right. exists now, url. split; [now right | exact H].
Qed.

(** Every row of a table built on a fresh file comes from a call of
    [add_url]: its URL is the normalized argument of that call, its
    creation time the time of that call, and its short code the one
    generated from that URL. *)
Theorem rows_have_an_origin (ops : list op) (r : row) :
  In r (run ops) ->
  exists now url,
    In (AddUrl now url) ops /\
    original_url r = normalized url /\ created_at r = now /\
    short_code r = generate_short_code (normalized url).
Proof.
  intros Hin. unfold run in Hin.
  destruct (rows_come_from_add_url ops _ r Hin) as [(r0 & [] & _)|H].
  exact H.
Qed.

Lemma rows_have_an_origin_witness :
  In (mkRow 1 "a9b9f0" "http://example.com" 10 2)
     (run [AddUrl 10 "example.com"; DoGET "/a9b9f0"; DoGET "/a9b9f0"]) /\
  exists now url,
    In (AddUrl now url)
       [AddUrl 10 "example.com"; DoGET "/a9b9f0"; DoGET "/a9b9f0"] /\
    "http://example.com" = normalized url /\ 10 = now /\
    "a9b9f0" = generate_short_code (normalized url).
Proof.
  assert (I : In (mkRow 1 "a9b9f0" "http://example.com" 10 2)
                 (run [AddUrl 10 "example.com"; DoGET "/a9b9f0";
                       DoGET "/a9b9f0"]))
    by (vm_compute; now left).
  split; [exact I|].
  exact (rows_have_an_origin _ _ I).
Defined.

Lemma strip_keeps_the_middle_witness :
  PyStr.strip "  example.com " = String "e" "xample.com" /\
  PyStr.space1 "e" = false.
Proof.
  assert (E : PyStr.strip "  example.com " = String "e" "xample.com")
    by (vm_compute; reflexivity).
  split; [exact E|].
  exact (proj1 (proj2 (strip_keeps_the_middle _)) _ _ E).
Defined.
